(** * estes: a shallow embedding of the Estes pickup-request client

    The Go package [estes] (one file, [estes.go]) builds a SOAP envelope from
    a [PickupRequestInput], posts it with basic authentication and a bounded
    wait, and classifies the carrier's reply.  This development embeds

    - the package-level variables [estesURL] and [timeout] with their two
      setters,
    - the data model (the structs with their [xml] tags),
    - [encoding/xml]'s marshalling of the request envelope, byte for byte,
    - the control flow of [RequestPickup], as a program in a small monad
      over the named results, the receiver cell and a trace of the calls it
      makes into the Go libraries,

    and proves the properties of the specification against them.

    Go strings and byte slices are sequences of bytes: they are modelled by
    [string] (a list of 8-bit [ascii]).  [time.Duration] is an [int64]
    count of nanoseconds: it is modelled by [Z] with the wrap-around written
    out.  A [float64] is kept abstract, together with its formatting
    function. *)

From Stdlib Require Import ZArith NArith List String Ascii Bool Lia.
From Stdlib Require Import DecimalString DecimalN.
Import ListNotations.
Local Open Scope string_scope.

(** ** Go basics *)

(** [error] values.  [errors.New] and [errors.Wrap] are the two constructors
    of [github.com/pkg/errors] the package uses; [lib_error] stands for an
    error value produced inside a library ([encoding/xml], [net/http],
    [io]), identified by its message. *)
Inductive error : Type :=
| lib_error (msg : string)
| errors_New (msg : string)
| errors_Wrap (cause : error) (msg : string).

(** The [Error()] method: a wrapped error prints its message, a colon and
    the message of its cause. *)
Fixpoint Error (e : error) : string :=
  match e with
  | lib_error msg => msg
  | errors_New msg => msg
  | errors_Wrap cause msg => msg ++ ": " ++ Error cause
  end.

(** [strings.HasPrefix] and [strings.Contains]. *)
Fixpoint HasPrefix (s p : string) : bool :=
  match p, s with
  | EmptyString, _ => true
  | String _ _, EmptyString => false
  | String b p', String a s' => Ascii.eqb a b && HasPrefix s' p'
  end.

Fixpoint Contains (s sub : string) : bool :=
  HasPrefix s sub ||
  match s with
  | EmptyString => false
  | String _ s' => Contains s' sub
  end.


(** [int64] wrap-around. *)
Definition wrap64 (z : Z) : Z := ((z + 2 ^ 63) mod 2 ^ 64 - 2 ^ 63)%Z.

Definition int64_range (z : Z) : Prop := (- 2 ^ 63 <= z < 2 ^ 63)%Z.

(** [time.Second], in nanoseconds. *)
Definition Second : Z := 1000000000%Z.

(** ** Package-level constants and variables *)

Definition estesTestURL : string :=
  "https://apitest.estes-express.com/tools/pickup/request/v1.0".
Definition estesProductionURL : string :=
  "https://api.estes-express.com/tools/pickup/request/v1.0".

Definition soapenvAttr : string := "http://schemas.xmlsoap.org/soap/envelope/".
Definition estAttr : string :=
  "http://estespickup.base.ws.provider.soapws.pickupRequest".

(** The two package variables. *)
Record Globals : Type := {
  estesURL : string;
  timeout : Z
}.

(** Their initialisers: [estesURL = estesTestURL],
    [timeout = time.Duration(10 * time.Second)]. *)
Definition initGlobals : Globals :=
  {| estesURL := estesTestURL; timeout := wrap64 (10 * Second)%Z |}.

Definition SetProductionMode (yes : bool) (g : Globals) : Globals :=
  if yes then {| estesURL := estesProductionURL; timeout := timeout g |}
  else g.

(** [timeout = time.Duration(seconds * time.Second)]: an [int64]
    multiplication. *)
Definition SetTimeout (seconds : Z) (g : Globals) : Globals :=
  {| estesURL := estesURL g; timeout := wrap64 (seconds * Second)%Z |}.

(** ** Data model

    Field names are the source's.  Where Go reuses a name (a field named as
    its type, or the same field name in two structs), the field carries its
    struct as a prefix. *)

(** [xml.Name]. *)
Record xml_Name : Type := { Space : string; Local : string }.

Definition zero_xml_Name : xml_Name := {| Space := ""; Local := "" |}.

Record Phone : Type := {
  AreaCode : string;
  Number : string
}.

Record Name : Type := {
  First : string;
  Middle : string;
  Last : string
}.

Record Contact : Type := {
  Contact_Name : Name;
  Email : string;
  Contact_Phone : Phone
}.

Record Address : Type := {
  AddressLine1 : string;
  City : string;
  StateProvince : string;
  PostalCode : string;
  Country : string;
  AddressLine2 : string
}.

Record Shipper : Type := {
  ShipperName : string;
  ShipperAddress : Address;
  ShipperContact : Contact
}.

Record CreatePickupRequestResponse : Type := {
  RequestNumber : string
}.

Record SuccessfulPickupRequest : Type := {
  Success_XMLName : xml_Name;
  Response : CreatePickupRequestResponse
}.

Record ErrorPickupRequest : Type := {
  Error_XMLName : xml_Name;
  Code : string;
  Description : string;
  BadData : string
}.

(** The zero values of the two reply structs. *)
Definition zero_SuccessfulPickupRequest : SuccessfulPickupRequest :=
  {| Success_XMLName := zero_xml_Name;
     Response := {| RequestNumber := "" |} |}.

Definition zero_ErrorPickupRequest : ErrorPickupRequest :=
  {| Error_XMLName := zero_xml_Name;
     Code := ""; Description := ""; BadData := "" |}.

(** ** UTF-8 decoding, as [unicode/utf8] does it *)

Definition RuneError : N := 65533.

(** The byte at the head of an encoding: [utf8.first] and
    [utf8.acceptRanges] in one table.  [Lead sz lo hi] is the first byte of
    an encoding of [sz] bytes whose second byte lies in [lo..hi]. *)
Inductive lead : Type :=
| ASCII
| Invalid
| Lead (sz : nat) (lo hi : N).

Definition first (s0 : N) : lead :=
  (if s0 <? 128 then ASCII
   else if s0 <? 194 then Invalid
   else if s0 <? 224 then Lead 2 128 191
   else if s0 =? 224 then Lead 3 160 191
   else if s0 <? 237 then Lead 3 128 191
   else if s0 =? 237 then Lead 3 128 159
   else if s0 <? 240 then Lead 3 128 191
   else if s0 =? 240 then Lead 4 144 191
   else if s0 <? 244 then Lead 4 128 191
   else if s0 =? 244 then Lead 4 128 143
   else Invalid)%N.

(** A continuation byte lies in [locb..hicb] = [0x80..0xBF]. *)
Definition continuation (b : N) : bool := ((128 <=? b) && (b <=? 191))%N.

(** [utf8.DecodeRuneInString]: the rune at the head of [s] and its width in
    bytes; [(RuneError, 1)] for an invalid encoding, [(RuneError, 0)] for
    the empty string. *)
Definition DecodeRuneInString (s : string) : N * nat :=
  match s with
  | EmptyString => (RuneError, 0)
  | String c0 t0 =>
    let s0 := N_of_ascii c0 in
    match first s0 with
    | ASCII => (s0, 1)
    | Invalid => (RuneError, 1)
    | Lead sz lo hi =>
      if (String.length s <? sz)%nat then (RuneError, 1) else
      match t0 with
      | EmptyString => (RuneError, 1)
      | String c1 t1 =>
        let s1 := N_of_ascii c1 in
        if ((s1 <? lo) || (hi <? s1))%N then (RuneError, 1) else
        if (sz <=? 2)%nat then
          (N.lor (N.shiftl (N.land s0 31) 6) (N.land s1 63), 2)
        else
        match t1 with
        | EmptyString => (RuneError, 1)
        | String c2 t2 =>
          let s2 := N_of_ascii c2 in
          if negb (continuation s2) then (RuneError, 1) else
          if (sz <=? 3)%nat then
            (N.lor (N.lor (N.shiftl (N.land s0 15) 12)
                          (N.shiftl (N.land s1 63) 6))
                   (N.land s2 63), 3)
          else
          match t2 with
          | EmptyString => (RuneError, 1)
          | String c3 _ =>
            let s3 := N_of_ascii c3 in
            if negb (continuation s3) then (RuneError, 1) else
            (N.lor (N.lor (N.lor (N.shiftl (N.land s0 7) 18)
                                 (N.shiftl (N.land s1 63) 12))
                          (N.shiftl (N.land s2 63) 6))
                   (N.land s3 63), 4)
          end
        end
      end
    end
  end.

(** ** Escaping, as [encoding/xml] does it *)

(** [xml.isInCharacterRange]: the [Char] production of the XML
    recommendation. *)
Definition isInCharacterRange (r : N) : bool :=
  ((r =? 9) || (r =? 10) || (r =? 13)
   || ((32 <=? r) && (r <=? 55295))
   || ((57344 <=? r) && (r <=? 65533))
   || ((65536 <=? r) && (r <=? 1114111)))%N.

(** U+FFFD in UTF-8. *)
Definition escFFFD : string :=
  String (ascii_of_N 239) (String (ascii_of_N 191) (String (ascii_of_N 189) "")).

(** The replacement of one rune in [printer.EscapeString], or [None] when
    the rune is copied as it is ([continue] in the source). *)
Definition escape_rune (r : N) (width : nat) : option string :=
  (if r =? 34 then Some "&#34;"
   else if r =? 39 then Some "&#39;"
   else if r =? 38 then Some "&amp;"
   else if r =? 60 then Some "&lt;"
   else if r =? 62 then Some "&gt;"
   else if r =? 9 then Some "&#x9;"
   else if r =? 10 then Some "&#xA;"
   else if r =? 13 then Some "&#xD;"
   else if negb (isInCharacterRange r) || ((r =? 65533) && (width =? 1)%nat)
        then Some escFFFD
   else None)%N.

(** [s[:n]] and [s[n:]]. *)
Fixpoint take (n : nat) (s : string) : string :=
  match n, s with
  | S n', String c s' => String c (take n' s')
  | _, _ => EmptyString
  end.

Fixpoint drop (n : nat) (s : string) : string :=
  match n, s with
  | S n', String _ s' => drop n' s'
  | _, _ => s
  end.

(** The loop of [printer.EscapeString], one rune per iteration: the source
    copies the pending run [s[last:i-width]] before each replacement and
    the final run after the loop, which writes, rune by rune, either the
    replacement or the rune's own bytes.  The loop runs while [i < len(s)];
    [fuel] bounds the iterations. *)
Fixpoint escape_loop (fuel : nat) (s : string) : string :=
  match fuel with
  | O => EmptyString
  | S fuel' =>
    match s with
    | EmptyString => EmptyString
    | String _ _ =>
      let (r, width) := DecodeRuneInString s in
      match escape_rune r width with
      | Some esc => esc
      | None => take width s
      end ++ escape_loop fuel' (drop width s)
    end
  end.

Definition EscapeString (s : string) : string := escape_loop (String.length s) s.

(** [strconv.FormatUint(v, 10)]. *)
Definition FormatUint (v : N) : string := NilEmpty.string_of_uint (N.to_uint v).

(** ** Marshalling, as [encoding/xml.Marshal] does it

    [xml.Marshal] writes a struct as an element named by its [XMLName] tag
    (or by the tag of the field that holds it), its [attr] fields as
    attributes in declaration order, and its other fields as child elements
    in declaration order, a tag [a>b>c] nesting the element [c] inside
    elements [a] and [b].  No field of the package has [omitempty]: an empty
    value is written as an element with no content.  Every simple value
    (string, unsigned integer, float) is converted to text and passed
    through [EscapeString]. *)

(** The double-quote character, as a string. *)
Definition dquote : string := String (ascii_of_N 34) EmptyString.

Definition startTag (name : string) : string := "<" ++ name ++ ">".
Definition endTag (name : string) : string := "</" ++ name ++ ">".

(** An element with no attribute. *)
Definition element (name content : string) : string :=
  startTag name ++ content ++ endTag name.

(** One attribute, as [printer.writeStart] writes it. *)
Definition attribute (name value : string) : string :=
  " " ++ name ++ "=" ++ dquote ++ EscapeString value ++ dquote.

(** A field of a simple type whose text is [text]. *)
Definition simpleField (name text : string) : string :=
  element name (EscapeString text).

Definition marshalPhone (v : Phone) : string :=
  simpleField "areaCode" (AreaCode v) ++
  simpleField "number" (Number v).

Definition marshalName (v : Name) : string :=
  simpleField "firstName" (First v) ++
  simpleField "middleName" (Middle v) ++
  simpleField "lastName" (Last v).

Definition marshalContact (v : Contact) : string :=
  element "name" (marshalName (Contact_Name v)) ++
  simpleField "email" (Email v) ++
  element "phone" (marshalPhone (Contact_Phone v)).

Definition marshalAddress (v : Address) : string :=
  simpleField "addressLine1" (AddressLine1 v) ++
  simpleField "city" (City v) ++
  simpleField "stateProvince" (StateProvince v) ++
  simpleField "postalCode" (PostalCode v) ++
  simpleField "countryAbbrev" (Country v) ++
  simpleField "addressLine2" (AddressLine2 v).

Definition marshalShipper (v : Shipper) : string :=
  simpleField "shipperName" (ShipperName v) ++
  element "shipperAddress"
    (element "addressInfo" (marshalAddress (ShipperAddress v))) ++
  element "shipperContacts"
    (element "shipperContact" (marshalContact (ShipperContact v))).

Section Estes.

(** [float64] and [strconv.FormatFloat(v, 'g', -1, 64)], the conversion
    [xml.Marshal] applies to it, are parameters of the development. *)
Context {float64 : Type}.
Variable FormatFloat : float64 -> string.

(** [uint] is modelled by [N]. *)
Record PickupRequestInput : Type := {
  Input_Shipper : Shipper;
  PickupDate : string;
  PickupStartTime : string;
  PickupEndTime : string;
  TotalPieces : N;
  TotalWeight : float64;
  TotalHandlingUnits : N;
  Input_RequestNumber : string;
  WhoRequested : string
}.

Record PickupRequest : Type := {
  Request_XMLName : xml_Name;
  SoapenvAttr : string;
  EstAttr : string;
  Request_PickupRequestInput : PickupRequestInput
}.

Definition marshalPickupRequestInput (v : PickupRequestInput) : string :=
  element "shipper" (marshalShipper (Input_Shipper v)) ++
  simpleField "pickupDate" (PickupDate v) ++
  simpleField "pickupStartTime" (PickupStartTime v) ++
  simpleField "pickupEndTime" (PickupEndTime v) ++
  simpleField "totalPieces" (FormatUint (TotalPieces v)) ++
  simpleField "totalWeight" (FormatFloat (TotalWeight v)) ++
  simpleField "totalHandlingUnits" (FormatUint (TotalHandlingUnits v)) ++
  simpleField "requestNumber" (Input_RequestNumber v) ++
  simpleField "whoRequested" (WhoRequested v).

(** [xml.Marshal(pickup)].  The element name comes from the tag of
    [XMLName], not from the field's value; the marshaller has no failing
    case for a struct of strings, unsigned integers and floats, so the
    error result is always [nil]. *)
Definition marshalPickupRequest (v : PickupRequest) : string :=
  "<soapenv:Envelope" ++
  attribute "xmlns:soapenv" (SoapenvAttr v) ++
  attribute "xmlns:est" (EstAttr v) ++
  ">" ++
  element "soapenv:Body"
    (element "est:createPickupRequestWS"
       (element "pickupRequestInput"
          (marshalPickupRequestInput (Request_PickupRequestInput v)))) ++
  endTag "soapenv:Envelope".

Definition xml_Marshal (v : PickupRequest) : string + error :=
  inl (marshalPickupRequest v).

(** ** The Go libraries [RequestPickup] calls *)

(** [http.Client], with the one field the package sets. *)
Record http_Client : Type := { Timeout : Z }.

(** [http.Request]: what [http.NewRequest], [SetBasicAuth] and
    [Header.Add] put into it.  [Header] lists the entries of the header map,
    key and value, in the order they were stored; the two keys the package
    uses are in canonical form as they are written. *)
Record http_Request : Type := {
  Method : string;
  URL : string;
  Req_Body : string;
  Header : list (string * string)
}.

(** [base64.StdEncoding.EncodeToString]: three bytes give four characters
    of the alphabet, and a last group of one or two bytes is padded with
    equal signs. *)
Definition base64_char (n : N) : ascii :=
  (if n <? 26 then ascii_of_N (65 + n)
   else if n <? 52 then ascii_of_N (97 + (n - 26))
   else if n <? 62 then ascii_of_N (48 + (n - 52))
   else if n =? 62 then "+"%char
   else "/"%char)%N.

Fixpoint base64_EncodeToString (s : string) : string :=
  match s with
  | EmptyString => EmptyString
  | String a EmptyString =>
    let a := N_of_ascii a in
    String (base64_char (N.shiftr a 2))
      (String (base64_char (N.shiftl (N.land a 3) 4)) "==")
  | String a (String b EmptyString) =>
    let a := N_of_ascii a in
    let b := N_of_ascii b in
    String (base64_char (N.shiftr a 2))
      (String (base64_char (N.lor (N.shiftl (N.land a 3) 4) (N.shiftr b 4)))
         (String (base64_char (N.shiftl (N.land b 15) 2)) "="))
  | String a (String b (String c rest)) =>
    let a := N_of_ascii a in
    let b := N_of_ascii b in
    let c := N_of_ascii c in
    String (base64_char (N.shiftr a 2))
      (String (base64_char (N.lor (N.shiftl (N.land a 3) 4) (N.shiftr b 4)))
         (String (base64_char (N.lor (N.shiftl (N.land b 15) 2) (N.shiftr c 6)))
            (String (base64_char (N.land c 63))
               (base64_EncodeToString rest))))
  end.

(** [http.Response], reduced to its body: the bytes [ioutil.ReadAll] reads
    from it and the error it ends with. *)
Record http_Response : Type := {
  Res_Body : string;
  Res_ReadErr : option error
}.

(** The behaviour of the libraries behind the calls.  [xml.Unmarshal] fills
    the value its second argument points to and returns an error; it may
    have stored into the value before it fails. *)
Record Lib : Type := {
  http_NewRequest_err : string -> string -> option error;
  http_Do : http_Client -> http_Request -> http_Response + error;
  xml_Unmarshal_Success :
    string -> SuccessfulPickupRequest -> SuccessfulPickupRequest * option error;
  xml_Unmarshal_Error :
    string -> ErrorPickupRequest -> ErrorPickupRequest * option error
}.

Definition http_NewRequest (lib : Lib) (method url body : string)
  : http_Request + error :=
  match http_NewRequest_err lib method url with
  | Some e => inr e
  | None => inl {| Method := method; URL := url; Req_Body := body;
                   Header := [] |}
  end.

(** [Header.Set]: the entries of the key are dropped and the new one is
    stored. *)
Definition Header_Set (req : http_Request) (key value : string) : http_Request :=
  {| Method := Method req; URL := URL req; Req_Body := Req_Body req;
     Header := filter (fun kv => negb (String.eqb (fst kv) key)) (Header req)
               ++ [(key, value)] |}.

(** [Request.SetBasicAuth]: the credentials, joined by a colon and encoded
    in base 64, are stored as the [Authorization] entry of the header. *)
Definition SetBasicAuth (req : http_Request) (username password : string)
  : http_Request :=
  Header_Set req "Authorization"
    ("Basic " ++ base64_EncodeToString (username ++ ":" ++ password)).

Definition Header_Add (req : http_Request) (key value : string) : http_Request :=
  {| Method := Method req; URL := URL req; Req_Body := Req_Body req;
     Header := Header req ++ [(key, value)] |}.

Definition ioutil_ReadAll (res : http_Response) : string + error :=
  match Res_ReadErr res with
  | Some e => inr e
  | None => inl (Res_Body res)
  end.

(** ** The execution of [RequestPickup] *)

(** What the function does that is visible outside it: the lines it logs
    and the library calls it makes. *)
Inductive Event : Type :=
| log_Println (s : string)
| log_Printf (format : string)
| log_Println_ErrorPickupRequest (v : ErrorPickupRequest)
| call_Marshal (v : PickupRequest)
| call_NewRequest (method url body : string)
| call_Do (c : http_Client) (req : http_Request)
| call_ReadAll
| call_Unmarshal_Success (body : string)
| call_Unmarshal_Error (body : string)
| call_Close.

(** The state of one call: the package variables, the cell the receiver
    points to, the two named results, the deferred calls and the trace. *)
Record State : Type := {
  globals : Globals;
  receiver : PickupRequestInput;
  responseData : SuccessfulPickupRequest;
  err : option error;
  deferred : list Event;
  trace : list Event
}.

(** A statement sequence: it runs on a state and either falls through with
    a value or has executed [return]. *)
Definition M (A : Type) : Type := State -> option A * State.

Definition ret {A} (a : A) : M A := fun s => (Some a, s).

Definition bind {A B} (m : M A) (k : A -> M B) : M B :=
  fun s =>
    match m s with
    | (Some a, s') => k a s'
    | (None, s') => (None, s')
    end.

Notation "x <- m ;; k" := (bind m (fun x => k))
  (at level 61, m at next level, right associativity).
Notation "m ;;; k" := (bind m (fun _ => k))
  (at level 61, right associativity).

(** The bare [return]. *)
Definition Return {A} : M A := fun s => (None, s).

Definition emit (e : Event) : M unit :=
  fun s =>
    (Some tt,
     {| globals := globals s; receiver := receiver s;
        responseData := responseData s; err := err s;
        deferred := deferred s; trace := trace s ++ [e] |}).

Definition defer (e : Event) : M unit :=
  fun s =>
    (Some tt,
     {| globals := globals s; receiver := receiver s;
        responseData := responseData s; err := err s;
        deferred := e :: deferred s; trace := trace s |}).

Definition set_err (e : option error) : M unit :=
  fun s =>
    (Some tt,
     {| globals := globals s; receiver := receiver s;
        responseData := responseData s; err := e;
        deferred := deferred s; trace := trace s |}).

Definition set_responseData (v : SuccessfulPickupRequest) : M unit :=
  fun s =>
    (Some tt,
     {| globals := globals s; receiver := receiver s;
        responseData := v; err := err s;
        deferred := deferred s; trace := trace s |}).

Definition get_receiver : M PickupRequestInput := fun s => (Some (receiver s), s).
Definition get_timeout : M Z := fun s => (Some (timeout (globals s)), s).
Definition get_responseData : M SuccessfulPickupRequest :=
  fun s => (Some (responseData s), s).

(** [v, err := f(...); if err != nil { err = errors.Wrap(err, msg); return }]:
    the call assigns [err]; on failure the error is wrapped and the
    function returns. *)
Definition call {A} (r : A + error) (msg : string) : M A :=
  match r with
  | inl a => set_err None ;;; ret a
  | inr e => set_err (Some (errors_Wrap e msg)) ;;; Return
  end.

Definition RequestPickup_body (lib : Lib) (estesUsername estesPassword : string)
  : M unit :=
  p <- get_receiver ;;
  let pickup :=
    {| Request_XMLName := zero_xml_Name;
       SoapenvAttr := soapenvAttr;
       EstAttr := estAttr;
       Request_PickupRequestInput := p |} in
  emit (call_Marshal pickup) ;;;
  xmlBytes <- call (xml_Marshal pickup)
                  "estes.RequestPickup - could not marshal xml" ;;
  t <- get_timeout ;;
  let httpClient := {| Timeout := t |} in
  emit (log_Println xmlBytes) ;;;
  emit (call_NewRequest "POST" estesProductionURL xmlBytes) ;;;
  req <- call (http_NewRequest lib "POST" estesProductionURL xmlBytes)
             "estes.RequestPickup - could not make build request" ;;
  let req := SetBasicAuth req estesUsername estesPassword in
  let req := Header_Add req "Content-Type" "text/xml" in
  emit (call_Do httpClient req) ;;;
  res <- call (http_Do lib httpClient req)
             "estes.RequestPickup - could not make post request" ;;
  emit call_ReadAll ;;;
  let read := ioutil_ReadAll res in
  defer call_Close ;;;
  body <- call read "estes.RequestPickup - could not read response 1" ;;
  emit (call_Unmarshal_Success body) ;;;
  dst <- get_responseData ;;
  let (decoded, uerr) := xml_Unmarshal_Success lib body dst in
  set_responseData decoded ;;;
  set_err uerr ;;;
  match uerr with
  | Some e =>
    emit (log_Println body) ;;;
    set_err (Some (errors_Wrap e "estes.RequestPickup - could not read response 2")) ;;;
    Return
  | None =>
    rd <- get_responseData ;;
    if String.eqb (RequestNumber (Response rd)) EmptyString then
      emit (log_Println "estes.RequestPickup - pickup request failed") ;;;
      emit (log_Printf body) ;;;
      emit (call_Unmarshal_Error body) ;;;
      let (errorData, _) := xml_Unmarshal_Error lib body zero_ErrorPickupRequest in
      set_err (Some (errors_New "estes.RequestPickup - pickup request failed")) ;;;
      emit (log_Println_ErrorPickupRequest errorData) ;;;
      Return
    else
      Return
  end.

(** The call [p.RequestPickup(estesUsername, estesPassword)] with the package
    variables [g] and [*p = p]: the named results start at their zero
    values, the body runs, and the deferred calls run at the return. *)
Definition RequestPickup (lib : Lib) (g : Globals) (p : PickupRequestInput)
    (estesUsername estesPassword : string) : State :=
  let s0 := {| globals := g; receiver := p;
               responseData := zero_SuccessfulPickupRequest; err := None;
               deferred := []; trace := [] |} in
  let s := snd (RequestPickup_body lib estesUsername estesPassword s0) in
  {| globals := globals s; receiver := receiver s;
     responseData := responseData s; err := err s;
     deferred := []; trace := trace s ++ deferred s |}.

End Estes.

Arguments PickupRequestInput : clear implicits.
Arguments PickupRequest : clear implicits.
Arguments Event : clear implicits.
Arguments State : clear implicits.
Arguments M : clear implicits.

(** ** Reading a request back against the documented schema

    The repository has no reader for the request envelope.  The
    specification speaks of parsing the produced XML against the documented
    schema; the reader below is that schema, element by element in the
    documented order, with character data decoded from its references. *)

(** A reader consumes a prefix of its input. *)
Definition Reader (A : Type) : Type := string -> option (A * string).

Definition rret {A} (a : A) : Reader A := fun s => Some (a, s).

Definition rbind {A B} (m : Reader A) (k : A -> Reader B) : Reader B :=
  fun s =>
    match m s with
    | Some (a, s') => k a s'
    | None => None
    end.

Notation "x <-- m ;; k" := (rbind m (fun x => k))
  (at level 61, m at next level, right associativity).

Definition rfail {A} : Reader A := fun _ => None.

(** The literal [lit], exactly. *)
Definition expect (lit : string) : Reader unit :=
  fun s => if HasPrefix s lit then Some (tt, drop (String.length lit) s) else None.

(** [utf8.EncodeRune]. *)
Definition byte (n : N) : string := String (ascii_of_N n) EmptyString.

Definition EncodeRune (r : N) : string :=
  (if r <? 128 then byte r
   else if r <? 2048 then byte (192 + r / 64) ++ byte (128 + r mod 64)
   else if (1114111 <? r) || ((55296 <=? r) && (r <=? 57343)) then escFFFD
   else if r <? 65536 then
     byte (224 + r / 4096) ++ byte (128 + (r / 64) mod 64) ++ byte (128 + r mod 64)
   else
     byte (240 + r / 262144) ++ byte (128 + (r / 4096) mod 64) ++
     byte (128 + (r / 64) mod 64) ++ byte (128 + r mod 64))%N.

(** The value of a digit in base [base]. *)
Definition digit (base : N) (c : ascii) : option N :=
  let n := N_of_ascii c in
  let v :=
    (if (48 <=? n) && (n <=? 57) then Some (n - 48)
     else if (97 <=? n) && (n <=? 102) then Some (n - 87)
     else if (65 <=? n) && (n <=? 70) then Some (n - 55)
     else None)%N in
  match v with
  | Some d => if (d <? base)%N then Some d else None
  | None => None
  end.

Fixpoint number (base : N) (acc : N) (s : string) : option N :=
  match s with
  | EmptyString => Some acc
  | String c s' =>
    match digit base c with
    | Some d => number base (acc * base + d)%N s'
    | None => None
    end
  end.

(** The text a reference [&name;] stands for: the five predefined entities
    and the decimal and hexadecimal character references. *)
Definition reference (name : string) : option string :=
  if String.eqb name "lt" then Some "<"
  else if String.eqb name "gt" then Some ">"
  else if String.eqb name "amp" then Some "&"
  else if String.eqb name "apos" then Some "'"
  else if String.eqb name "quot" then Some dquote
  else
    match name with
    | String "#" (String "x" (String c hex)) =>
      option_map EncodeRune (number 16 0 (String c hex))
    | String "#" (String c dec) =>
      option_map EncodeRune (number 10 0 (String c dec))
    | _ => None
    end.

Definition prepend (pre : string) (r : option (string * string))
  : option (string * string) :=
  match r with
  | Some (t, rest) => Some (pre ++ t, rest)
  | None => None
  end.

(** Character data up to the next tag, its references decoded.  [ent] holds
    the name of the reference being read, if one is open. *)
Fixpoint charData (ent : option string) (s : string) : option (string * string) :=
  match s with
  | EmptyString =>
    match ent with
    | None => Some (EmptyString, EmptyString)
    | Some _ => None
    end
  | String c s' =>
    match ent with
    | Some name =>
      if Ascii.eqb c ";" then
        match reference name with
        | Some text => prepend text (charData None s')
        | None => None
        end
      else charData (Some (name ++ String c EmptyString)) s'
    | None =>
      if Ascii.eqb c "<" then Some (EmptyString, s)
      else if Ascii.eqb c "&" then charData (Some EmptyString) s'
      else prepend (String c EmptyString) (charData None s')
    end
  end.

(** [<name>] a value [</name>]. *)
Definition inElement {A} (name : string) (r : Reader A) : Reader A :=
  _ <-- expect (startTag name) ;;
  v <-- r ;;
  _ <-- expect (endTag name) ;;
  rret v.

Definition stringField (name : string) : Reader string :=
  inElement name (charData None).

Definition uintField (name : string) : Reader N :=
  text <-- stringField name ;;
  match NilEmpty.uint_of_string text with
  | Some d => rret (N.of_uint d)
  | None => rfail
  end.

Definition readPhone : Reader Phone :=
  a <-- stringField "areaCode" ;;
  n <-- stringField "number" ;;
  rret {| AreaCode := a; Number := n |}.

Definition readName : Reader Name :=
  f <-- stringField "firstName" ;;
  m <-- stringField "middleName" ;;
  l <-- stringField "lastName" ;;
  rret {| First := f; Middle := m; Last := l |}.

Definition readContact : Reader Contact :=
  n <-- inElement "name" readName ;;
  e <-- stringField "email" ;;
  p <-- inElement "phone" readPhone ;;
  rret {| Contact_Name := n; Email := e; Contact_Phone := p |}.

Definition readAddress : Reader Address :=
  l1 <-- stringField "addressLine1" ;;
  c <-- stringField "city" ;;
  st <-- stringField "stateProvince" ;;
  pc <-- stringField "postalCode" ;;
  co <-- stringField "countryAbbrev" ;;
  l2 <-- stringField "addressLine2" ;;
  rret {| AddressLine1 := l1; City := c; StateProvince := st;
          PostalCode := pc; Country := co; AddressLine2 := l2 |}.

Definition readShipper : Reader Shipper :=
  n <-- stringField "shipperName" ;;
  a <-- inElement "shipperAddress" (inElement "addressInfo" readAddress) ;;
  c <-- inElement "shipperContacts" (inElement "shipperContact" readContact) ;;
  rret {| ShipperName := n; ShipperAddress := a; ShipperContact := c |}.

Section Reader.

Context {float64 : Type}.

(** [strconv.ParseFloat(text, 64)], a parameter as [FormatFloat] is. *)
Variable ParseFloat : string -> option float64.

Definition floatField (name : string) : Reader float64 :=
  text <-- stringField name ;;
  match ParseFloat text with
  | Some w => rret w
  | None => rfail
  end.

Definition readPickupRequestInput : Reader (PickupRequestInput float64) :=
  sh <-- inElement "shipper" readShipper ;;
  d <-- stringField "pickupDate" ;;
  t1 <-- stringField "pickupStartTime" ;;
  t2 <-- stringField "pickupEndTime" ;;
  tp <-- uintField "totalPieces" ;;
  tw <-- floatField "totalWeight" ;;
  th <-- uintField "totalHandlingUnits" ;;
  rn <-- stringField "requestNumber" ;;
  who <-- stringField "whoRequested" ;;
  rret {| Input_Shipper := sh; PickupDate := d; PickupStartTime := t1;
          PickupEndTime := t2; TotalPieces := tp; TotalWeight := tw;
          TotalHandlingUnits := th; Input_RequestNumber := rn;
          WhoRequested := who |}.

(** The documented schema of the request, as a reader: the root with its two
    fixed namespace declarations, the body, the operation and the input,
    every field in the documented order; nothing may follow the root.  It
    follows the specification, not the source, and is what the marshaller
    of the source is compared with. *)
Definition readEnvelope : Reader (PickupRequestInput float64) :=
  _ <-- expect ("<soapenv:Envelope xmlns:soapenv=" ++ dquote ++ soapenvAttr ++ dquote
                ++ " xmlns:est=" ++ dquote ++ estAttr ++ dquote ++ ">") ;;
  v <-- inElement "soapenv:Body"
          (inElement "est:createPickupRequestWS"
             (inElement "pickupRequestInput" readPickupRequestInput)) ;;
  _ <-- expect (endTag "soapenv:Envelope") ;;
  rret v.

Definition parseEnvelope (xml : string) : option (PickupRequestInput float64) :=
  match readEnvelope xml with
  | Some (v, EmptyString) => Some v
  | _ => None
  end.

End Reader.

(** A string [EscapeString] writes without loss: valid UTF-8 whose
    characters are XML characters.  The loop is that of [escape_loop]. *)
Definition replaced (r : N) (width : nat) : bool :=
  negb (isInCharacterRange r) || ((r =? 65533)%N && (width =? 1)%nat).

Fixpoint representable_loop (fuel : nat) (s : string) : bool :=
  match fuel with
  | O => true
  | S fuel' =>
    match s with
    | EmptyString => true
    | String _ _ =>
      let (r, width) := DecodeRuneInString s in
      negb (replaced r width) && representable_loop fuel' (drop width s)
    end
  end.

Definition representable (s : string) : bool :=
  representable_loop (String.length s) s.

Definition representable_Phone (v : Phone) : bool :=
  representable (AreaCode v) && representable (Number v).

Definition representable_Name (v : Name) : bool :=
  representable (First v) && representable (Middle v) && representable (Last v).

Definition representable_Contact (v : Contact) : bool :=
  representable_Name (Contact_Name v) && representable (Email v)
  && representable_Phone (Contact_Phone v).

Definition representable_Address (v : Address) : bool :=
  representable (AddressLine1 v) && representable (City v)
  && representable (StateProvince v) && representable (PostalCode v)
  && representable (Country v) && representable (AddressLine2 v).

Definition representable_Shipper (v : Shipper) : bool :=
  representable (ShipperName v) && representable_Address (ShipperAddress v)
  && representable_Contact (ShipperContact v).

(** [reads r text v]: the reader [r] consumes exactly [text], whatever
    follows it, and yields [v]. *)
Definition reads {A} (r : Reader A) (text : string) (v : A) : Prop :=
  forall rest, r (text ++ rest) = Some (v, rest).

(** A printable ASCII character other than the five [EscapeString]
    replaces by a reference. *)
Definition plain (c : ascii) : Prop :=
  (32 <= N_of_ascii c < 128)%N /\
  ~ In (N_of_ascii c) [34; 38; 39; 60; 62]%N.

(** ** Observations on an execution *)

Section Observations.

Context {float64 : Type}.
Variable FormatFloat : float64 -> string.

(** The envelope [RequestPickup] builds around its receiver. *)
Definition envelope (p : PickupRequestInput float64) : PickupRequest float64 :=
  {| Request_XMLName := zero_xml_Name;
     SoapenvAttr := soapenvAttr;
     EstAttr := estAttr;
     Request_PickupRequestInput := p |}.

(** The client and the request of lines 174 to 187: the timeout of the
    package, and a POST of the marshalled envelope to the production URL
    with the credentials and the content type in its header. *)
Definition client_of (g : Globals) : http_Client := {| Timeout := timeout g |}.

Definition request_of (p : PickupRequestInput float64)
    (estesUsername estesPassword : string) : http_Request :=
  Header_Add
    (SetBasicAuth
       {| Method := "POST";
          URL := estesProductionURL;
          Req_Body := marshalPickupRequest FormatFloat (envelope p);
          Header := [] |}
       estesUsername estesPassword)
    "Content-Type" "text/xml".

(** The transport delivers the reply [body]: the request can be built, the
    library answers it with a response, and the body of the response is
    read to its end without error. *)
Definition delivers (lib : Lib) (g : Globals) (p : PickupRequestInput float64)
    (estesUsername estesPassword : string) (body : string) : Prop :=
  http_NewRequest_err lib "POST" estesProductionURL = None /\
  exists res,
    http_Do lib (client_of g) (request_of p estesUsername estesPassword) = inl res /\
    Res_ReadErr res = None /\
    Res_Body res = body.

(** Every string the marshaller writes for [v] is written without loss. *)
Definition representable_Input (v : PickupRequestInput float64) : bool :=
  representable_Shipper (Input_Shipper v)
  && representable (PickupDate v)
  && representable (PickupStartTime v)
  && representable (PickupEndTime v)
  && representable (FormatFloat (TotalWeight v))
  && representable (Input_RequestNumber v)
  && representable (WhoRequested v).

(** The library calls of a trace, in order, without their arguments. *)
Inductive Call : Type :=
| Marshal | NewRequest | Do | ReadAll | Unmarshal_Success | Unmarshal_Error.

Definition call_of (e : Event float64) : list Call :=
  match e with
  | call_Marshal _ => [Marshal]
  | call_NewRequest _ _ _ => [NewRequest]
  | call_Do _ _ => [Do]
  | call_ReadAll => [ReadAll]
  | call_Unmarshal_Success _ => [Unmarshal_Success]
  | call_Unmarshal_Error _ => [Unmarshal_Error]
  | _ => []
  end.

Definition calls (tr : list (Event float64)) : list Call := flat_map call_of tr.

(** The operations of the package, as a client may issue them in sequence,
    and their effect on the package variables. *)
Inductive Op : Type :=
| op_SetProductionMode (yes : bool)
| op_SetTimeout (seconds : Z)
| op_RequestPickup (lib : Lib) (p : PickupRequestInput float64)
    (estesUsername estesPassword : string).

Definition step (g : Globals) (o : Op) : Globals :=
  match o with
  | op_SetProductionMode yes => SetProductionMode yes g
  | op_SetTimeout seconds => SetTimeout seconds g
  | op_RequestPickup lib p u pw => globals (RequestPickup FormatFloat lib g p u pw)
  end.


End Observations.

Arguments Op : clear implicits.

(** ** Further observations *)

Section Accounting.

Context {float64 : Type}.

(** The library calls of [RequestPickup], in the order of its statements. *)
Definition pipeline : list Call :=
  [Marshal; NewRequest; Do; ReadAll; Unmarshal_Success; Unmarshal_Error].

(** The lines written to the log, and the closing of the response body. *)
Definition is_log (e : Event float64) : bool :=
  match e with
  | log_Println _ | log_Printf _ | log_Println_ErrorPickupRequest _ => true
  | _ => false
  end.

Definition is_Close (e : Event float64) : bool :=
  match e with
  | call_Close => true
  | _ => false
  end.

(** Whether a sequence of operations holds a [SetProductionMode(true)], and
    the argument of its last [SetTimeout]. *)
Definition production_requested (ops : list (Op float64)) : bool :=
  existsb (fun o => match o with
                    | op_SetProductionMode true => true
                    | _ => false
                    end) ops.

Fixpoint last_SetTimeout (ops : list (Op float64)) : option Z :=
  match ops with
  | [] => None
  | o :: rest =>
    match last_SetTimeout rest with
    | Some n => Some n
    | None =>
      match o with
      | op_SetTimeout n => Some n
      | _ => None
      end
    end
  end.

End Accounting.

(** The number of bytes [c] in [s]. *)
Fixpoint count_byte (c : ascii) (s : string) : nat :=
  match s with
  | EmptyString => 0
  | String d s' => (if Ascii.eqb d c then 1 else 0) + count_byte c s'
  end.

(** The eight characters [EscapeString] replaces by a reference, and those
    of them that never stand in its output: all but the ampersand. *)
Definition escaped (c : ascii) : bool :=
  existsb (N.eqb (N_of_ascii c)) [34; 39; 38; 60; 62; 9; 10; 13]%N.

Definition markup (c : ascii) : bool :=
  existsb (N.eqb (N_of_ascii c)) [34; 39; 60; 62; 9; 10; 13]%N.

Definition free_of (bad : ascii -> bool) (s : string) : bool :=
  forallb (fun c => negb (bad c)) (list_ascii_of_string s).

(** ** Sample runs

    The libraries are parameters of [RequestPickup].  A sample run fixes
    what they return: the transport hands back one body, and each decoder
    maps that body to a given result and meets any other body with the
    [io.EOF] it returns when it finds no element. *)

Definition io_EOF : error := lib_error "EOF".

Definition decodes {A} (body : string) (result : A * option error)
  : string -> A -> A * option error :=
  fun b dst => if String.eqb b body then result else (dst, Some io_EOF).

(** A carrier that answers every request with [body]. *)
Definition answering (body : string)
    (success : SuccessfulPickupRequest * option error)
    (failure : ErrorPickupRequest * option error) : Lib :=
  {| http_NewRequest_err := fun _ _ => None;
     http_Do := fun _ _ => inl {| Res_Body := body; Res_ReadErr := None |};
     xml_Unmarshal_Success := decodes body success;
     xml_Unmarshal_Error := decodes body failure |}.

(** A carrier that cannot be reached. *)
Definition unreachable : Lib :=
  {| http_NewRequest_err := fun _ _ => None;
     http_Do := fun _ _ =>
       inr (lib_error "dial tcp: lookup api.estes-express.com: no such host");
     xml_Unmarshal_Success := fun _ dst => (dst, Some io_EOF);
     xml_Unmarshal_Error := fun _ dst => (dst, Some io_EOF) |}.

(** A confirmation: the decoder records the root's name and the number. *)
Definition confirmed_body : string :=
  "<Envelope><Body><createPickupRequestWSResponse>" ++
  "<requestNumber>1234567</requestNumber>" ++
  "</createPickupRequestWSResponse></Body></Envelope>".

Definition confirmed_value : SuccessfulPickupRequest :=
  {| Success_XMLName := {| Space := EmptyString; Local := "Envelope" |};
     Response := {| RequestNumber := "1234567" |} |}.

Definition confirming : Lib :=
  answering confirmed_body (confirmed_value, None)
    (zero_ErrorPickupRequest,
     Some (lib_error "expected element type <error> but have <Envelope>")).

(** An envelope with no request number in it. *)
Definition empty_body : string := "<Envelope></Envelope>".

Definition empty_value : SuccessfulPickupRequest :=
  {| Success_XMLName := {| Space := EmptyString; Local := "Envelope" |};
     Response := {| RequestNumber := EmptyString |} |}.

Definition declining : Lib :=
  answering empty_body (empty_value, None)
    (zero_ErrorPickupRequest,
     Some (lib_error "expected element type <error> but have <Envelope>")).









Definition sample_Shipper (name : string) : Shipper :=
  {| ShipperName := name;
     ShipperAddress :=
       {| AddressLine1 := "1 Main St"; City := "Richmond";
          StateProvince := "VA"; PostalCode := "23230"; Country := "US";
          AddressLine2 := EmptyString |};
     ShipperContact :=
       {| Contact_Name :=
            {| First := "Ann"; Middle := EmptyString; Last := "O'Hara & <Co>" |};
          Email := "ann@example.com";
          Contact_Phone := {| AreaCode := "804"; Number := "5551234" |} |} |}.

Definition sample_Input (name : string) : PickupRequestInput N :=
  {| Input_Shipper := sample_Shipper name;
     PickupDate := "2020-01-02";
     PickupStartTime := "0900";
     PickupEndTime := "1700";
     TotalPieces := 4;
     TotalWeight := 1500%N;
     TotalHandlingUnits := 2;
     Input_RequestNumber := EmptyString;
     WhoRequested := EmptyString |}.


(** * Proofs *)

(** ** Strings and bits *)

Lemma take_drop (n : nat) (s : string) : take n s ++ drop n s = s.
Proof.
  revert s; induction n as [|n IH]; intros [|c s]; simpl; try reflexivity.
  now rewrite IH.
Qed.

Lemma length_drop_le (n : nat) (s : string) :
  String.length (drop n s) <= String.length s.
Proof.
  revert s; induction n as [|n IH]; intros [|c s]; simpl; try lia.
  specialize (IH s). lia.
Qed.

Lemma append_assoc (a b c : string) : (a ++ b) ++ c = a ++ (b ++ c).
Proof. induction a as [|x a IH]; simpl; [reflexivity | now rewrite IH]. Qed.

Lemma append_nil_r (s : string) : s ++ EmptyString = s.
Proof. induction s as [|c s IH]; simpl; [reflexivity | now rewrite IH]. Qed.

Lemma HasPrefix_app (p rest : string) : HasPrefix (p ++ rest) p = true.
Proof.
  induction p as [|c p IH]; simpl; [now destruct rest|].
  now rewrite Ascii.eqb_refl, IH.
Qed.

Lemma drop_app (p rest : string) : drop (String.length p) (p ++ rest) = rest.
Proof. induction p as [|c p IH]; simpl; [now destruct rest | exact IH]. Qed.

Lemma Contains_app (pre sub post : string) :
  Contains (pre ++ sub ++ post) sub = true.
Proof.
  induction pre as [|c pre IH]; simpl.
  - pose proof (HasPrefix_app sub post) as H.
    destruct (sub ++ post); cbn [Contains]; now rewrite H.
  - rewrite IH. apply orb_true_r.
Qed.

Lemma Pos_lor_ge_l (p q : positive) : (p <= Pos.lor p q)%positive.
Proof.
  revert q; induction p as [p IH|p IH|]; intros [q|q|]; simpl;
    try specialize (IH q); lia.
Qed.

Lemma N_lor_ge_l (a b : N) : (a <= N.lor a b)%N.
Proof.
  destruct a as [|p], b as [|q]; simpl; try lia.
  pose proof (Pos_lor_ge_l p q). lia.
Qed.

Lemma N_lor_ge_r (a b : N) : (b <= N.lor a b)%N.
Proof. rewrite N.lor_comm. apply N_lor_ge_l. Qed.

(** The head of a rune, masked and shifted, bounds the rune from below. *)
Lemma mask_shift_ge (a b k m lo : N) :
  (lo <= (a mod 2 ^ k) * 2 ^ m)%N ->
  (lo <= N.lor (N.shiftl (N.land a (N.ones k)) m) b)%N.
Proof.
  intros H. rewrite N.land_ones, N.shiftl_mul_pow2.
  eapply N.le_trans; [exact H | apply N_lor_ge_l].
Qed.

Lemma ascii_neq_of_N (c d : ascii) :
  N_of_ascii c <> N_of_ascii d -> Ascii.eqb c d = false.
Proof. intros H. apply Ascii.eqb_neq. congruence. Qed.

(** Linear arithmetic with division and remainder by constants. *)
Ltac mlia := zify; Z.to_euclidean_division_equations; lia.

Ltac split_ifs H :=
  repeat match type of H with
         | context [if ?b then _ else _] => destruct b eqn:?
         end.

Ltac to_N :=
  repeat match goal with
         | H : (_ <? _)%N = true |- _ => apply N.ltb_lt in H
         | H : (_ <? _)%N = false |- _ => apply N.ltb_ge in H
         | H : (_ <=? _)%N = true |- _ => apply N.leb_le in H
         | H : (_ <=? _)%N = false |- _ => apply N.leb_gt in H
         | H : (_ =? _)%N = true |- _ => apply N.eqb_eq in H
         | H : (_ =? _)%N = false |- _ => apply N.eqb_neq in H
         | H : (_ || _)%bool = false |- _ => apply orb_false_iff in H; destruct H
         | H : (_ && _)%bool = true |- _ => apply andb_true_iff in H; destruct H
         | H : negb _ = false |- _ => apply negb_false_iff in H
         end.

Ltac bools :=
  repeat match goal with
         | H : (_ && _)%bool = true |- _ => apply andb_true_iff in H; destruct H
         end.

(** ** Decoding a rune *)

Lemma first_ASCII (s0 : N) : first s0 = ASCII -> (s0 < 128)%N.
Proof.
  unfold first. intros F. split_ifs F; try discriminate. to_N. assumption.
Qed.

(** A rune that does not start with an ASCII byte is the error rune of
    width one, or lies above the ASCII range together with all its bytes. *)
Lemma decode_high (c0 : ascii) (t0 : string) (r : N) (w : nat) :
  DecodeRuneInString (String c0 t0) = (r, w) ->
  first (N_of_ascii c0) <> ASCII ->
  (r = RuneError /\ w = 1) \/
  ((128 <= r)%N /\
   forall c, In c (list_ascii_of_string (take w (String c0 t0))) ->
             (128 <= N_of_ascii c)%N).
Proof.
  unfold DecodeRuneInString.
  set (s0 := N_of_ascii c0).
  destruct (first s0) as [| |sz lo hi] eqn:F; intros H NA.
  - contradiction.
  - left. now inversion H.
  - assert (B : (194 <= s0)%N /\ (128 <= lo)%N /\ (hi <= 191)%N /\
               ((sz = 2 /\ (128 <= (s0 mod 2 ^ 5) * 2 ^ 6)%N) \/
                (sz = 3 /\ ((128 <= (s0 mod 2 ^ 4) * 2 ^ 12)%N \/ (160 <= lo)%N)) \/
                (sz = 4 /\ ((128 <= (s0 mod 2 ^ 3) * 2 ^ 18)%N \/ (144 <= lo)%N)))).
    { unfold first in F. split_ifs F; inversion F; subst; to_N;
        change (2 ^ 5)%N with 32%N; change (2 ^ 4)%N with 16%N;
        change (2 ^ 3)%N with 8%N; change (2 ^ 6)%N with 64%N;
        change (2 ^ 12)%N with 4096%N; change (2 ^ 18)%N with 262144%N;
        (split; [lia | split; [lia | split; [lia | ]]]).
      all: first [ left; split; [reflexivity | mlia]
                 | right; left; split; [reflexivity | first [left; mlia | right; lia]]
                 | right; right; split; [reflexivity | first [left; mlia | right; lia]] ]. }
    destruct B as (B0 & Blo & Bhi & Bsz).
    destruct (String.length (String c0 t0) <? sz)%nat; [left; now inversion H|].
    destruct t0 as [|c1 t1]; [left; now inversion H|].
    set (s1 := N_of_ascii c1) in *.
    destruct ((s1 <? lo) || (hi <? s1))%N eqn:E1; [left; now inversion H|].
    to_N.
    destruct (sz <=? 2)%nat eqn:S2.
    { inversion H; subst r w. right. split.
      - destruct Bsz as [[-> Hb]|[[-> _]|[-> _]]]; try discriminate.
        change 31%N with (N.ones 5). now apply mask_shift_ge.
      - simpl. intros c [<-|[<-|[]]]; fold s0; fold s1; lia. }
    destruct t1 as [|c2 t2]; [left; now inversion H|].
    set (s2 := N_of_ascii c2) in *.
    destruct (continuation s2) eqn:E2; simpl in H; [|left; now inversion H].
    unfold continuation in E2. to_N.
    destruct (sz <=? 3)%nat eqn:S3.
    { inversion H; subst r w. right. split.
      - destruct Bsz as [[-> Hb]|[[-> Hb]|[-> _]]]; try discriminate.
        eapply N.le_trans; [|apply N_lor_ge_l].
        destruct Hb as [Hb|Hb].
        + change 15%N with (N.ones 4). now apply mask_shift_ge.
        + eapply N.le_trans; [|apply N_lor_ge_r].
          change 63%N with (N.ones 6). rewrite N.land_ones, N.shiftl_mul_pow2.
          change (2 ^ 6)%N with 64%N. mlia.
      - simpl. intros c [<-|[<-|[<-|[]]]]; fold s0; fold s1; fold s2; lia. }
    destruct t2 as [|c3 t3]; [left; now inversion H|].
    set (s3 := N_of_ascii c3) in *.
    destruct (continuation s3) eqn:E3; simpl in H; [|left; now inversion H].
    unfold continuation in E3. to_N.
    inversion H; subst r w. right. split.
    + destruct Bsz as [[-> Hb]|[[-> Hb]|[-> Hb]]]; try discriminate.
      eapply N.le_trans; [|apply N_lor_ge_l].
      eapply N.le_trans; [|apply N_lor_ge_l].
      destruct Hb as [Hb|Hb].
      * change 7%N with (N.ones 3). now apply mask_shift_ge.
      * eapply N.le_trans; [|apply N_lor_ge_r].
        change 63%N with (N.ones 6). rewrite N.land_ones, N.shiftl_mul_pow2.
        change (2 ^ 6)%N with 64%N. change (2 ^ 12)%N with 4096%N. mlia.
    + simpl. intros c [<-|[<-|[<-|[<-|[]]]]]; fold s0; fold s1; fold s2; fold s3; lia.
Qed.

Lemma escape_rune_high (r : N) (w : nat) :
  (128 <= r)%N -> replaced r w = false -> escape_rune r w = None.
Proof.
  intros Hr Hrep. unfold escape_rune. fold (replaced r w). rewrite Hrep.
  repeat match goal with
         | |- context [(r =? ?k)%N] =>
           destruct (N.eqb_spec r k); [lia|]
         end.
  reflexivity.
Qed.

(** ** Character data, written and read back *)

(** Bytes other than the two the reader reacts to are copied. *)
Lemma charData_plain (chunk t : string) :
  (forall c, In c (list_ascii_of_string chunk) ->
     N_of_ascii c <> 60%N /\ N_of_ascii c <> 38%N) ->
  charData None (chunk ++ t) = prepend chunk (charData None t).
Proof.
  induction chunk as [|c chunk IH]; intros H; simpl.
  - destruct (charData None t) as [[? ?]|]; reflexivity.
  - destruct (H c (or_introl eq_refl)) as [H1 H2].
    rewrite (ascii_neq_of_N c "<"), (ascii_neq_of_N c "&") by assumption.
    rewrite IH by (intros d Hd; apply H; now right).
    destruct (charData None t) as [[? ?]|]; reflexivity.
Qed.

(** One iteration of the escaping loop, read back. *)
Lemma charData_escape_step (c0 : ascii) (t0 : string) (r : N) (w : nat) :
  DecodeRuneInString (String c0 t0) = (r, w) ->
  replaced r w = false ->
  (0 < w)%nat /\
  forall t,
    charData None
      (match escape_rune r w with
       | Some esc => esc
       | None => take w (String c0 t0)
       end ++ t)
    = prepend (take w (String c0 t0)) (charData None t).
Proof.
  intros D Hrep.
  destruct (first (N_of_ascii c0)) eqn:F.
  - unfold DecodeRuneInString in D. rewrite F in D. inversion D; subst r w; clear D.
    split; [lia|]. intros t.
    assert (C : forall k, N_of_ascii c0 = k -> c0 = ascii_of_N k)
      by (intros k <-; now rewrite ascii_N_embedding).
    unfold escape_rune. fold (replaced (N_of_ascii c0) 1). rewrite Hrep.
    repeat match goal with
           | |- context [(N_of_ascii c0 =? ?k)%N] =>
             destruct (N.eqb_spec (N_of_ascii c0) k) as [E|?];
               [apply C in E; subst c0; simpl;
                destruct (charData None t) as [[? ?]|]; reflexivity|]
           end.
    apply (charData_plain (take 1 (String c0 t0))).
    simpl. intros c [<-|[]]. split; assumption.
  - assert (NA : first (N_of_ascii c0) <> ASCII) by (rewrite F; discriminate).
    destruct (decode_high c0 t0 r w D NA) as [[-> ->]|[Hr Hb]];
      [vm_compute in Hrep; discriminate|].
    split.
    + unfold DecodeRuneInString in D. rewrite F in D. inversion D; lia.
    + intros t. rewrite (escape_rune_high r w Hr Hrep).
      apply charData_plain. intros c Hc. specialize (Hb c Hc). lia.
  - assert (NA : first (N_of_ascii c0) <> ASCII) by (rewrite F; discriminate).
    destruct (decode_high c0 t0 r w D NA) as [[-> ->]|[Hr Hb]];
      [vm_compute in Hrep; discriminate|].
    split.
    + unfold DecodeRuneInString in D. rewrite F in D.
      repeat match type of D with
             | context [match ?x with _ => _ end] => destruct x
             end; inversion D; lia.
    + intros t. rewrite (escape_rune_high r w Hr Hrep).
      apply charData_plain. intros c Hc. specialize (Hb c Hc). lia.
Qed.

(** Reading back what the escaping loop wrote, up to the tag that follows. *)
Lemma charData_escape_loop (fuel : nat) (s t : string) :
  String.length s <= fuel ->
  representable_loop fuel s = true ->
  charData None (escape_loop fuel s ++ String "<" t) = Some (s, String "<" t).
Proof.
  revert s. induction fuel as [|fuel IH]; intros s Hlen Hrep.
  - destruct s; [reflexivity | simpl in Hlen; lia].
  - destruct s as [|c0 t0]; [reflexivity|].
    cbn [escape_loop representable_loop] in *.
    destruct (DecodeRuneInString (String c0 t0)) as [r w] eqn:D.
    apply andb_true_iff in Hrep. destruct Hrep as [Hr Hrest].
    apply negb_true_iff in Hr.
    destruct (charData_escape_step c0 t0 r w D Hr) as [Hw Hstep].
    rewrite append_assoc, Hstep, IH; [| |assumption].
    + simpl prepend. now rewrite take_drop.
    + destruct w as [|w]; [lia|]. simpl in *.
      pose proof (length_drop_le w t0). lia.
Qed.

Lemma charData_EscapeString (s t : string) :
  representable s = true ->
  charData None (EscapeString s ++ String "<" t) = Some (s, String "<" t).
Proof. intros H. now apply charData_escape_loop. Qed.

(** ** Readers, field by field *)

Lemma reads_expect (lit : string) : reads (expect lit) lit tt.
Proof.
  intros rest. unfold expect. now rewrite HasPrefix_app, drop_app.
Qed.

Lemma reads_bind {A B} (r : Reader A) (k : A -> Reader B) t1 t2 a b :
  reads r t1 a -> reads (k a) t2 b -> reads (rbind r k) (t1 ++ t2) b.
Proof.
  intros H1 H2 rest. unfold rbind. now rewrite append_assoc, H1, H2.
Qed.

Lemma reads_last {A B} (r : Reader A) (f : A -> B) t a :
  reads r t a -> reads (rbind r (fun x => rret (f x))) t (f a).
Proof. intros H rest. unfold rbind, rret. now rewrite H. Qed.

Lemma reads_inElement {A} (name : string) (r : Reader A) content v :
  reads r content v -> reads (inElement name r) (element name content) v.
Proof.
  intros H. unfold inElement, element.
  apply reads_bind with (a := tt); [apply reads_expect|].
  apply reads_bind with (a := v); [exact H|].
  apply (reads_last (expect (endTag name)) (fun _ => v) (endTag name) tt).
  apply reads_expect.
Qed.

Lemma charData_before_endTag (v name rest : string) :
  representable v = true ->
  charData None (EscapeString v ++ endTag name ++ rest)
  = Some (v, endTag name ++ rest).
Proof. intros H. unfold endTag. simpl. now apply charData_EscapeString. Qed.

Lemma reads_stringField (name v : string) :
  representable v = true ->
  reads (stringField name) (simpleField name v) v.
Proof.
  intros H rest. unfold stringField, simpleField, inElement, element, rbind, rret.
  rewrite append_assoc, (reads_expect (startTag name)).
  rewrite append_assoc, (charData_before_endTag v name rest H).
  now rewrite (reads_expect (endTag name)).
Qed.

Lemma representable_plain (s : string) :
  (forall c, In c (list_ascii_of_string s) -> plain c) ->
  representable s = true.
Proof.
  unfold representable.
  induction s as [|c s IH]; intros H; [reflexivity|].
  cbn [String.length representable_loop].
  destruct (H c (or_introl eq_refl)) as [[Hlo Hhi] _].
  assert (D : DecodeRuneInString (String c s) = (N_of_ascii c, 1)).
  { unfold DecodeRuneInString, first.
    destruct (N.ltb_spec (N_of_ascii c) 128); [reflexivity | lia]. }
  rewrite D. cbn [drop].
  rewrite IH by (intros d Hd; apply H; now right).
  rewrite andb_true_r. apply negb_true_iff.
  unfold replaced, isInCharacterRange.
  repeat match goal with
         | |- context [(?a =? ?b)%N] => destruct (N.eqb_spec a b); try lia
         | |- context [(?a <=? ?b)%N] => destruct (N.leb_spec a b); try lia
         end; reflexivity.
Qed.

Lemma string_of_uint_plain (d : Decimal.uint) (c : ascii) :
  In c (list_ascii_of_string (NilEmpty.string_of_uint d)) -> plain c.
Proof.
  induction d; simpl; try tauto;
    (intros [<-|H]; [|now apply IHd]);
    (split; [vm_compute; split; [discriminate | reflexivity]
            | vm_compute; intuition discriminate]).
Qed.

Lemma representable_FormatUint (n : N) : representable (FormatUint n) = true.
Proof. apply representable_plain. intros c. apply string_of_uint_plain. Qed.

Lemma reads_uintField (name : string) (n : N) :
  reads (uintField name) (simpleField name (FormatUint n)) n.
Proof.
  intros rest. unfold uintField, rbind.
  rewrite (reads_stringField name _ (representable_FormatUint n)).
  unfold FormatUint. rewrite NilEmpty.usu. unfold rret.
  now rewrite DecimalN.Unsigned.of_to.
Qed.

Ltac read_fields :=
  repeat (eapply reads_bind;
          [first [ apply reads_stringField; assumption
                 | apply reads_uintField
                 | eassumption
                 | apply reads_inElement; eassumption
                 | apply reads_inElement; apply reads_inElement; eassumption ]|]).

Lemma reads_Phone (v : Phone) :
  representable_Phone v = true -> reads readPhone (marshalPhone v) v.
Proof.
  destruct v as [a n]. unfold representable_Phone, readPhone, marshalPhone.
  cbn [AreaCode Number]. intros H. bools.
  read_fields.
  apply (reads_last _ (fun n => {| AreaCode := a; Number := n |})).
  now apply reads_stringField.
Qed.

Lemma reads_Name (v : Name) :
  representable_Name v = true -> reads readName (marshalName v) v.
Proof.
  destruct v as [f m l]. unfold representable_Name, readName, marshalName.
  cbn [First Middle Last]. intros H. bools.
  read_fields.
  apply (reads_last _ (fun l => {| First := f; Middle := m; Last := l |})).
  now apply reads_stringField.
Qed.

Lemma reads_Contact (v : Contact) :
  representable_Contact v = true -> reads readContact (marshalContact v) v.
Proof.
  destruct v as [n e p]. unfold representable_Contact, readContact, marshalContact.
  cbn [Contact_Name Email Contact_Phone]. intros H. bools.
  pose proof (reads_Name n ltac:(assumption)).
  pose proof (reads_Phone p ltac:(assumption)).
  read_fields.
  apply (reads_last _ (fun p => {| Contact_Name := n; Email := e; Contact_Phone := p |})).
  now apply reads_inElement.
Qed.

Lemma reads_Address (v : Address) :
  representable_Address v = true -> reads readAddress (marshalAddress v) v.
Proof.
  destruct v as [l1 c st pc co l2].
  unfold representable_Address, readAddress, marshalAddress.
  cbn [AddressLine1 City StateProvince PostalCode Country AddressLine2].
  intros H. bools.
  read_fields.
  apply (reads_last _ (fun l2 => {| AddressLine1 := l1; City := c; StateProvince := st;
                                    PostalCode := pc; Country := co; AddressLine2 := l2 |})).
  now apply reads_stringField.
Qed.

Lemma reads_Shipper (v : Shipper) :
  representable_Shipper v = true -> reads readShipper (marshalShipper v) v.
Proof.
  destruct v as [n a c]. unfold representable_Shipper, readShipper, marshalShipper.
  cbn [ShipperName ShipperAddress ShipperContact]. intros H. bools.
  pose proof (reads_Address a ltac:(assumption)).
  pose proof (reads_Contact c ltac:(assumption)).
  read_fields.
  apply (reads_last _ (fun c => {| ShipperName := n; ShipperAddress := a;
                                   ShipperContact := c |})).
  now do 2 apply reads_inElement.
Qed.

Section ReadBack.

Context {float64 : Type}.
Variable FormatFloat : float64 -> string.
Variable ParseFloat : string -> option float64.

Lemma reads_floatField (name : string) (w : float64) :
  representable (FormatFloat w) = true ->
  ParseFloat (FormatFloat w) = Some w ->
  reads (floatField ParseFloat name) (simpleField name (FormatFloat w)) w.
Proof.
  intros Hr Hp rest. unfold floatField, rbind.
  rewrite (reads_stringField name _ Hr). now rewrite Hp.
Qed.

Lemma reads_PickupRequestInput (v : PickupRequestInput float64) :
  representable_Input FormatFloat v = true ->
  ParseFloat (FormatFloat (TotalWeight v)) = Some (TotalWeight v) ->
  reads (readPickupRequestInput ParseFloat) (marshalPickupRequestInput FormatFloat v) v.
Proof.
  destruct v as [sh d t1 t2 tp tw th rn who].
  unfold representable_Input, readPickupRequestInput, marshalPickupRequestInput.
  cbn [Input_Shipper PickupDate PickupStartTime PickupEndTime TotalPieces
       TotalWeight TotalHandlingUnits Input_RequestNumber WhoRequested].
  intros H HF. bools.
  pose proof (reads_Shipper sh ltac:(assumption)).
  pose proof (reads_floatField "totalWeight" tw ltac:(assumption) HF).
  read_fields.
  apply (reads_last _ (fun who =>
    {| Input_Shipper := sh; PickupDate := d; PickupStartTime := t1;
       PickupEndTime := t2; TotalPieces := tp; TotalWeight := tw;
       TotalHandlingUnits := th; Input_RequestNumber := rn;
       WhoRequested := who |})).
  now apply reads_stringField.
Qed.

(** The envelope as the marshaller writes it: the root with its two
    namespace declarations, then the body. *)
Lemma marshal_envelope (p : PickupRequestInput float64) :
  marshalPickupRequest FormatFloat (envelope p)
  = ("<soapenv:Envelope xmlns:soapenv=" ++ dquote ++ soapenvAttr ++ dquote
     ++ " xmlns:est=" ++ dquote ++ estAttr ++ dquote ++ ">")
    ++ element "soapenv:Body"
         (element "est:createPickupRequestWS"
            (element "pickupRequestInput" (marshalPickupRequestInput FormatFloat p)))
    ++ endTag "soapenv:Envelope".
Proof. reflexivity. Qed.

Lemma parseEnvelope_marshal (p : PickupRequestInput float64) :
  representable_Input FormatFloat p = true ->
  ParseFloat (FormatFloat (TotalWeight p)) = Some (TotalWeight p) ->
  parseEnvelope ParseFloat (marshalPickupRequest FormatFloat (envelope p)) = Some p.
Proof.
  intros Hr Hf. unfold parseEnvelope.
  assert (R : reads (readEnvelope ParseFloat)
                    (marshalPickupRequest FormatFloat (envelope p)) p).
  { rewrite marshal_envelope. unfold readEnvelope.
    apply reads_bind with (a := tt); [apply reads_expect|].
    eapply reads_bind.
    - do 3 apply reads_inElement. now apply reads_PickupRequestInput.
    - apply (reads_last (expect (endTag "soapenv:Envelope")) (fun _ => p) _ tt).
      apply reads_expect. }
  specialize (R EmptyString). rewrite append_nil_r in R. now rewrite R.
Qed.

End ReadBack.

(** ** The execution of [RequestPickup], branch by branch *)

Ltac run :=
  cbv [RequestPickup RequestPickup_body bind ret Return emit defer set_err
       set_responseData get_receiver get_timeout get_responseData call
       xml_Marshal http_NewRequest ioutil_ReadAll snd
       globals receiver responseData err deferred trace app].

(** One case split per library call, in the order of the calls; the
    decoders are split on the body that was read. *)
Ltac step_lib lib :=
  match goal with
  | |- context [http_NewRequest_err lib ?a ?b] =>
    let H := fresh "Hnew" in
    destruct (http_NewRequest_err lib a b) eqn:H
  | |- context [http_Do lib ?c ?r] =>
    let H := fresh "Hdo" in
    let res := fresh "res" in
    destruct (http_Do lib c r) as [res|?] eqn:H
  | |- context [Res_ReadErr ?r] =>
    let H := fresh "Hread" in
    destruct (Res_ReadErr r) eqn:H
  | |- context [xml_Unmarshal_Success lib (Res_Body ?r) ?d] =>
    let H := fresh "Hun" in
    let decoded := fresh "decoded" in
    destruct (xml_Unmarshal_Success lib (Res_Body r) d) as [decoded [?|]] eqn:H
  | |- context [String.eqb (RequestNumber ?r) EmptyString] =>
    let H := fresh "Hnum" in
    destruct (String.eqb (RequestNumber r) EmptyString) eqn:H
  | |- context [xml_Unmarshal_Error lib (Res_Body ?r) ?d] =>
    let H := fresh "Herr" in
    destruct (xml_Unmarshal_Error lib (Res_Body r) d) eqn:H
  end.

Ltac branches lib := run; repeat (step_lib lib; run).

(** Membership in an explicit trace. *)
Ltac in_trace :=
  repeat match goal with
         | H : In _ (_ :: _) |- _ => destruct H as [H|H]
         | H : In _ [] |- _ => destruct H
         | H : _ = _ :> Event _ |- _ =>
           first [discriminate H | inversion H; clear H; subst]
         | H : _ = _ :> Call |- _ => discriminate H
         | H : False |- _ => destruct H
         end.

Section Execution.

Context {float64 : Type}.
Variable FormatFloat : float64 -> string.

(** The package variables are read, never written. *)
Lemma RequestPickup_globals lib g (p : PickupRequestInput float64) u pw :
  globals (RequestPickup FormatFloat lib g p u pw) = g.
Proof. branches lib; reflexivity. Qed.

(** Every request handed to the transport. *)
Lemma RequestPickup_call_Do lib g (p : PickupRequestInput float64) u pw c req :
  In (call_Do c req) (trace (RequestPickup FormatFloat lib g p u pw)) ->
  Timeout c = timeout g /\
  Method req = "POST" /\
  URL req = estesProductionURL /\
  Req_Body req = marshalPickupRequest FormatFloat (envelope p) /\
  Header req
  = [("Authorization", "Basic " ++ base64_EncodeToString (u ++ ":" ++ pw));
     ("Content-Type", "text/xml")].
Proof.
  branches lib; intros H; in_trace; repeat split; reflexivity.
Qed.

(** The client and the request handed to the transport are those of
    [client_of] and [request_of]. *)
Lemma RequestPickup_sends lib g (p : PickupRequestInput float64) u pw c req :
  In (call_Do c req) (trace (RequestPickup FormatFloat lib g p u pw)) ->
  c = client_of g /\ req = request_of FormatFloat p u pw.
Proof.
  branches lib; intros H; in_trace; split; reflexivity.
Qed.

(** Unfolding the client, the request and the delivery of a reply to the
    terms the execution shows. *)
Ltac delivered H :=
  let res := fresh "res" in
  let Hnew := fresh "Dnew" in
  let Hdo := fresh "Ddo" in
  let Hread := fresh "Dread" in
  destruct H as (Hnew & res & Hdo & Hread & <-);
  cbv [client_of request_of envelope] in Hdo.

(** A request is handed to the transport as soon as it could be built. *)
Lemma RequestPickup_posts lib g (p : PickupRequestInput float64) u pw :
  http_NewRequest_err lib "POST" estesProductionURL = None ->
  exists c req, In (call_Do c req) (trace (RequestPickup FormatFloat lib g p u pw)).
Proof.
  intros HN. branches lib; try congruence; do 2 eexists; simpl;
    repeat first [left; reflexivity | right].
Qed.

(** ** Claims *)

(** C1 (endpoint selection), at the failing input.  While production mode
    has never been set the package variable [estesURL] holds the test URL,
    and the request [RequestPickup] hands to the transport is addressed to
    the production URL all the same: the function passes the constant
    [estesProductionURL] to [http.NewRequest] and never reads [estesURL]. *)
Theorem RequestPickup_posts_to_production
    lib g (p : PickupRequestInput float64) u pw :
  estesURL g = estesTestURL ->
  http_NewRequest_err lib "POST" estesProductionURL = None ->
  exists c req,
    In (call_Do c req) (trace (RequestPickup FormatFloat lib g p u pw)) /\
    URL req = estesProductionURL /\
    URL req <> estesURL g.
Proof.
  intros Hg HN.
  destruct (RequestPickup_posts lib g p u pw HN) as (c & req & Hin).
  exists c, req. split; [assumption|].
  destruct (RequestPickup_call_Do lib g p u pw c req Hin) as (_ & _ & HU & _).
  split; [assumption|]. rewrite HU, Hg. discriminate.
Qed.

(** X13 (a reply without request number).  For every reply body the
    transport delivers that decodes as the success shape with an empty
    request number, whatever the error-shape decoder makes of it,
    [RequestPickup] fails with the fixed error
    [estes.RequestPickup - pickup request failed] and returns what the
    decoder stored; the body is decoded as the error shape and the result
    is written to the log, not put into the error. *)
Theorem empty_number_fails_with_fixed_error
    lib g (p : PickupRequestInput float64) u pw body v :
  delivers FormatFloat lib g p u pw body ->
  xml_Unmarshal_Success lib body zero_SuccessfulPickupRequest = (v, None) ->
  RequestNumber (Response v) = EmptyString ->
  err (RequestPickup FormatFloat lib g p u pw)
  = Some (errors_New "estes.RequestPickup - pickup request failed") /\
  responseData (RequestPickup FormatFloat lib g p u pw) = v /\
  calls (trace (RequestPickup FormatFloat lib g p u pw))
  = [Marshal; NewRequest; Do; ReadAll; Unmarshal_Success; Unmarshal_Error] /\
  In (call_Unmarshal_Error body) (trace (RequestPickup FormatFloat lib g p u pw)) /\
  In (log_Println_ErrorPickupRequest
        (fst (xml_Unmarshal_Error lib body zero_ErrorPickupRequest)))
     (trace (RequestPickup FormatFloat lib g p u pw)).
Proof.
  intros D Hv Hempty. delivered D.
  branches lib; try congruence;
    assert (res0 = res) by congruence; subst res0; try congruence.
  - rewrite Hun in Hv. inversion Hv; subst.
    rewrite Herr in Herr0. inversion Herr0; subst.
    cbn [fst In calls flat_map call_of app]. repeat split; tauto.
  - rewrite Hun in Hv. inversion Hv; subst.
    rewrite Hempty in Hnum. discriminate.
Qed.


(** C4 (success classification).  [RequestPickup] returns a nil error and
    the value [v] exactly when the transport delivers a reply body that
    decodes as the success shape, without error, to [v] and the request
    number of [v] is not empty: every such reply is a success, that is the
    only way to success, the number returned is the one decoded, and a
    decoded reply whose number is empty is a failure. *)
Theorem success_classification lib g (p : PickupRequestInput float64) u pw v :
  (err (RequestPickup FormatFloat lib g p u pw) = None /\
   responseData (RequestPickup FormatFloat lib g p u pw) = v)
  <->
  (exists body,
     delivers FormatFloat lib g p u pw body /\
     xml_Unmarshal_Success lib body zero_SuccessfulPickupRequest = (v, None) /\
     RequestNumber (Response v) <> EmptyString).
Proof.
  split.
  - branches lib; intros [He Hr]; try discriminate He. subst v.
    exists (Res_Body res). split; [|split; [assumption|]].
    + split; [assumption|]. exists res. cbv [client_of request_of envelope]. auto.
    + intros E. apply String.eqb_neq in Hnum. contradiction.
  - intros (body & D & Hv & Hne). delivered D.
    branches lib; try congruence;
      assert (res0 = res) by congruence; subst res0; try congruence.
    + rewrite Hun in Hv. inversion Hv; subst.
      apply String.eqb_eq in Hnum. contradiction.
    + rewrite Hun in Hv. inversion Hv; subst. split; reflexivity.
Qed.

(** C5, as amended.  The timeout of the client [RequestPickup] hands to the
    transport is the package variable [timeout]: ten seconds by default,
    and after [SetTimeout(n)] the product of [n] and [time.Second] in
    [int64] arithmetic, that is [n] seconds when the product fits. *)
Theorem timeout_applied lib g (p : PickupRequestInput float64) u pw c req :
  In (call_Do c req) (trace (RequestPickup FormatFloat lib g p u pw)) ->
  Timeout c = timeout g /\
  (g = initGlobals -> Timeout c = (10 * Second)%Z) /\
  (forall n g0, g = SetTimeout n g0 ->
     Timeout c = wrap64 (n * Second) /\
     (int64_range (n * Second) -> Timeout c = (n * Second)%Z)).
Proof.
  intros H. apply RequestPickup_call_Do in H. destruct H as [H _].
  split; [assumption|]. split.
  - intros ->. rewrite H. reflexivity.
  - intros n g0 ->. rewrite H. cbn [SetTimeout timeout]. split; [reflexivity|].
    unfold int64_range, wrap64. intros R.
    rewrite Z.mod_small by lia. lia.
Qed.

(** C6 (deterministic serialization).  Whatever the libraries answer,
    whatever the package variables and the credentials, two calls on the
    same input hand the same bytes to the transport: the envelope the
    marshaller writes for the input, its elements in the order of the
    struct fields. *)
Theorem serialization_deterministic
    lib1 lib2 g1 g2 (p : PickupRequestInput float64) u1 u2 pw1 pw2 c1 c2 req1 req2 :
  In (call_Do c1 req1) (trace (RequestPickup FormatFloat lib1 g1 p u1 pw1)) ->
  In (call_Do c2 req2) (trace (RequestPickup FormatFloat lib2 g2 p u2 pw2)) ->
  Req_Body req1 = Req_Body req2 /\
  Req_Body req1 = marshalPickupRequest FormatFloat (envelope p).
Proof.
  intros H1 H2.
  apply RequestPickup_call_Do in H1. apply RequestPickup_call_Do in H2.
  destruct H1 as (_ & _ & _ & B1 & _), H2 as (_ & _ & _ & B2 & _).
  split; congruence.
Qed.


(** C9 (no way back to the test URL).  [SetProductionMode(false)] leaves
    the package variables as they are, and once [estesURL] holds the
    production URL it holds it after every sequence of operations of the
    package. *)
Theorem production_mode_is_sticky (ops : list (Op float64)) (g : Globals) :
  estesURL g = estesProductionURL ->
  estesURL (fold_left (step FormatFloat) ops g) = estesProductionURL /\
  (forall g', SetProductionMode false g' = g').
Proof.
  intros H. split; [|reflexivity].
  revert g H. induction ops as [|o ops IH]; intros g H; [exact H|].
  cbn [fold_left]. apply IH.
  destruct o as [[|]|seconds|lib p u pw]; cbn [step].
  - reflexivity.
  - exact H.
  - exact H.
  - now rewrite RequestPickup_globals.
Qed.

(** C10 (the receiver is not written).  Whatever the libraries answer, the
    cell the receiver points to holds after the call the input it held
    before it. *)
Theorem receiver_unchanged lib g (p : PickupRequestInput float64) u pw :
  receiver (RequestPickup FormatFloat lib g p u pw) = p.
Proof. branches lib; reflexivity. Qed.

End Execution.

(** ** Reading the envelope back *)





Section RoundTrip.

Context {float64 : Type}.
Variable FormatFloat : float64 -> string.
Variable ParseFloat : string -> option float64.


End RoundTrip.

(** * The claims at sample runs

    Closed instances: each theorem with a hypothesis applied to a sample
    run, and the inputs at which the specification and the code part. *)

Ltac here := repeat first [left; reflexivity | right].

(** C1 at a sample run: production mode was never set, and the request goes
    to the production URL. *)
Lemma RequestPickup_posts_to_production_witness :
  estesURL initGlobals = estesTestURL /\
  http_NewRequest_err confirming "POST" estesProductionURL = None /\
  exists c req,
    In (call_Do c req)
       (trace (RequestPickup FormatUint confirming initGlobals
                 (sample_Input "ACME") "user" "secret")) /\
    URL req = estesProductionURL /\
    URL req <> estesURL initGlobals.
Proof.
  split; [reflexivity|]. split; [reflexivity|].
  apply (RequestPickup_posts_to_production FormatUint confirming initGlobals
           (sample_Input "ACME") "user" "secret"); reflexivity.
Defined.

(** A sample delivery: the carrier that answers every request with
    [body] delivers [body]. *)
Lemma answering_delivers (body : string) success failure g
    (p : PickupRequestInput N) u pw :
  delivers FormatUint (answering body success failure) g p u pw body.
Proof.
  split; [reflexivity|]. eexists. split; [reflexivity|]. split; reflexivity.
Defined.

(** X13 at a sample run: an envelope without request number. *)
Lemma empty_number_fails_with_fixed_error_witness :
  let out := RequestPickup FormatUint declining initGlobals
               (sample_Input "ACME") "user" "secret" in
  delivers FormatUint declining initGlobals (sample_Input "ACME") "user" "secret"
    empty_body /\
  xml_Unmarshal_Success declining empty_body zero_SuccessfulPickupRequest
  = (empty_value, None) /\
  RequestNumber (Response empty_value) = EmptyString /\
  err out = Some (errors_New "estes.RequestPickup - pickup request failed") /\
  responseData out = empty_value /\
  calls (trace out)
  = [Marshal; NewRequest; Do; ReadAll; Unmarshal_Success; Unmarshal_Error] /\
  In (call_Unmarshal_Error empty_body) (trace out) /\
  In (log_Println_ErrorPickupRequest
        (fst (xml_Unmarshal_Error declining empty_body zero_ErrorPickupRequest)))
     (trace out).
Proof.
  cbv zeta.
  pose proof (answering_delivers empty_body (empty_value, None)
                (zero_ErrorPickupRequest,
                 Some (lib_error "expected element type <error> but have <Envelope>"))
                initGlobals (sample_Input "ACME") "user" "secret") as D.
  split; [exact D|]. split; [vm_compute; reflexivity|]. split; [reflexivity|].
  apply (empty_number_fails_with_fixed_error FormatUint declining initGlobals
           (sample_Input "ACME") "user" "secret" empty_body empty_value D);
    vm_compute; reflexivity.
Defined.



(** C4 at a sample run: a confirmation is returned with its number. *)
Lemma success_classification_witness :
  let out := RequestPickup FormatUint confirming initGlobals
               (sample_Input "ACME") "user" "secret" in
  delivers FormatUint confirming initGlobals (sample_Input "ACME") "user" "secret"
    confirmed_body /\
  xml_Unmarshal_Success confirming confirmed_body zero_SuccessfulPickupRequest
  = (confirmed_value, None) /\
  err out = None /\
  responseData out = confirmed_value /\
  RequestNumber (Response (responseData out)) = "1234567".
Proof.
  cbv zeta.
  pose proof (answering_delivers confirmed_body (confirmed_value, None)
                (zero_ErrorPickupRequest,
                 Some (lib_error "expected element type <error> but have <Envelope>"))
                initGlobals (sample_Input "ACME") "user" "secret") as D.
  assert (U : xml_Unmarshal_Success confirming confirmed_body
                zero_SuccessfulPickupRequest = (confirmed_value, None))
    by (vm_compute; reflexivity).
  split; [exact D|]. split; [exact U|].
  assert (H : err (RequestPickup FormatUint confirming initGlobals
                     (sample_Input "ACME") "user" "secret") = None /\
              responseData (RequestPickup FormatUint confirming initGlobals
                              (sample_Input "ACME") "user" "secret")
              = confirmed_value).
  { apply (success_classification FormatUint confirming initGlobals
             (sample_Input "ACME") "user" "secret" confirmed_value).
    exists confirmed_body. split; [exact D|]. split; [exact U|].
    vm_compute. discriminate. }
  destruct H as [H1 H2]. split; [exact H1|]. split; [exact H2|].
  rewrite H2. reflexivity.
Defined.

(** C5 as stated fails: after [SetTimeout(5 * time.Second)] the timeout
    applied is not five seconds but five seconds times a thousand million;
    and [SetTimeout(10 * time.Second)] overflows to a negative timeout. *)
Lemma SetTimeout_compounds_a_duration :
  exists c req,
    In (call_Do c req)
       (trace (RequestPickup FormatUint unreachable
                 (SetTimeout (5 * Second) initGlobals)
                 (sample_Input "ACME") "user" "secret")) /\
    Timeout c = 5000000000000000000%Z /\
    Timeout c <> (5 * Second)%Z /\
    timeout (SetTimeout (10 * Second) initGlobals) = (-8446744073709551616)%Z.
Proof.
  vm_compute. do 2 eexists. split; [here|].
  split; [reflexivity|]. split; [discriminate | reflexivity].
Qed.

Lemma timeout_applied_witness :
  exists c req,
    In (call_Do c req)
       (trace (RequestPickup FormatUint unreachable (SetTimeout 30 initGlobals)
                 (sample_Input "ACME") "user" "secret")) /\
    Timeout c = (30 * Second)%Z.
Proof.
  assert (H : exists c req,
             In (call_Do c req)
                (trace (RequestPickup FormatUint unreachable
                          (SetTimeout 30 initGlobals)
                          (sample_Input "ACME") "user" "secret")))
    by (vm_compute; do 2 eexists; here).
  destruct H as (c & req & H). exists c, req. split; [exact H|].
  destruct (timeout_applied FormatUint unreachable (SetTimeout 30 initGlobals)
              (sample_Input "ACME") "user" "secret" c req H) as (_ & _ & Hn).
  destruct (Hn 30%Z initGlobals eq_refl) as [_ Hr].
  apply Hr. unfold int64_range, Second. lia.
Defined.

(** C6 at two sample runs that differ in the carrier, the package
    variables and the credentials. *)
Lemma serialization_deterministic_witness :
  exists c1 req1 c2 req2,
    In (call_Do c1 req1)
       (trace (RequestPickup FormatUint confirming initGlobals
                 (sample_Input "ACME") "user" "secret")) /\
    In (call_Do c2 req2)
       (trace (RequestPickup FormatUint unreachable
                 (SetProductionMode true (SetTimeout 30 initGlobals))
                 (sample_Input "ACME") "another" "password")) /\
    Req_Body req1 = Req_Body req2 /\
    Req_Body req1 = marshalPickupRequest FormatUint (envelope (sample_Input "ACME")).
Proof.
  assert (H1 : exists c req,
             In (call_Do c req)
                (trace (RequestPickup FormatUint confirming initGlobals
                          (sample_Input "ACME") "user" "secret")))
    by (vm_compute; do 2 eexists; here).
  assert (H2 : exists c req,
             In (call_Do c req)
                (trace (RequestPickup FormatUint unreachable
                          (SetProductionMode true (SetTimeout 30 initGlobals))
                          (sample_Input "ACME") "another" "password")))
    by (vm_compute; do 2 eexists; here).
  destruct H1 as (c1 & req1 & H1), H2 as (c2 & req2 & H2).
  exists c1, req1, c2, req2. split; [exact H1|]. split; [exact H2|].
  exact (serialization_deterministic FormatUint _ _ _ _ _ _ _ _ _ _ _ _ _ H1 H2).
Defined.





(** C9 at a sample sequence of operations. *)
Lemma production_mode_is_sticky_witness :
  estesURL (SetProductionMode true initGlobals) = estesProductionURL /\
  estesURL
    (fold_left (step FormatUint)
       [op_SetProductionMode false;
        op_SetTimeout 30;
        op_RequestPickup confirming (sample_Input "ACME") "user" "secret";
        op_SetProductionMode false]
       (SetProductionMode true initGlobals))
  = estesProductionURL /\
  (forall g', SetProductionMode false g' = g').
Proof.
  split; [reflexivity|].
  apply (production_mode_is_sticky FormatUint). reflexivity.
Defined.

(** * Further properties *)

(** ** What the escaping writes *)

Lemma list_ascii_of_string_app (a b : string) :
  list_ascii_of_string (a ++ b)
  = (list_ascii_of_string a ++ list_ascii_of_string b)%list.
Proof. induction a as [|c a IH]; simpl; [reflexivity | now rewrite IH]. Qed.

Lemma free_of_app (bad : ascii -> bool) (a b : string) :
  free_of bad (a ++ b) = free_of bad a && free_of bad b.
Proof. unfold free_of. now rewrite list_ascii_of_string_app, forallb_app. Qed.

Lemma free_of_drop (bad : ascii -> bool) (n : nat) (s : string) :
  free_of bad s = true -> free_of bad (drop n s) = true.
Proof.
  unfold free_of. revert s. induction n as [|n IH]; intros [|c s] H; simpl; auto.
  simpl in H. apply andb_true_iff in H. destruct H as [_ H]. now apply IH.
Qed.

Lemma free_of_high (bad : ascii -> bool) (s : string) :
  (forall c, (128 <= N_of_ascii c)%N -> bad c = false) ->
  (forall c, In c (list_ascii_of_string s) -> (128 <= N_of_ascii c)%N) ->
  free_of bad s = true.
Proof.
  intros Hbad H. unfold free_of. apply forallb_forall. intros c Hc.
  now rewrite Hbad by (apply H, Hc).
Qed.

Lemma markup_high (c : ascii) : (128 <= N_of_ascii c)%N -> markup c = false.
Proof.
  intros H. unfold markup. cbn [existsb].
  repeat match goal with
         | |- context [(N_of_ascii c =? ?k)%N] =>
           destruct (N.eqb_spec (N_of_ascii c) k); [lia|]
         end.
  reflexivity.
Qed.

(** A rune is copied only if it is none of the eight and is not replaced. *)
Lemma escape_rune_None (r : N) (w : nat) :
  escape_rune r w = None ->
  replaced r w = false /\
  existsb (N.eqb r) [34; 39; 38; 60; 62; 9; 10; 13]%N = false.
Proof.
  unfold escape_rune. fold (replaced r w). cbn [existsb].
  repeat match goal with
         | |- context [(r =? ?k)%N] => destruct (N.eqb_spec r k); [discriminate|]
         end.
  destruct (replaced r w); [discriminate|]. intros _. split; reflexivity.
Qed.

Lemma escape_rune_Some (r : N) (w : nat) (esc : string) :
  escape_rune r w = Some esc -> free_of markup esc = true.
Proof.
  unfold escape_rune.
  repeat match goal with
         | |- context [if ?b then _ else _] => destruct b
         end; intros H; inversion H; reflexivity.
Qed.

(** What one iteration of the escaping loop writes holds no markup. *)
Lemma escape_step_free (c0 : ascii) (t0 : string) (r : N) (w : nat) :
  DecodeRuneInString (String c0 t0) = (r, w) ->
  free_of markup
    (match escape_rune r w with
     | Some esc => esc
     | None => take w (String c0 t0)
     end) = true.
Proof.
  intros D. destruct (escape_rune r w) as [esc|] eqn:E.
  - exact (escape_rune_Some r w esc E).
  - apply escape_rune_None in E. destruct E as [Hrep Hsp].
    destruct (first (N_of_ascii c0)) eqn:F.
    + unfold DecodeRuneInString in D. rewrite F in D. inversion D; subst r w.
      unfold free_of, markup. cbn [take list_ascii_of_string forallb existsb] in *.
      repeat match type of Hsp with
             | (_ || _)%bool = false =>
               apply orb_false_iff in Hsp; destruct Hsp as [? Hsp]
             end.
      repeat match goal with
             | H : (_ =? _)%N = false |- _ => rewrite H; clear H
             end.
      reflexivity.
    + assert (NA : first (N_of_ascii c0) <> ASCII) by (rewrite F; discriminate).
      destruct (decode_high c0 t0 r w D NA) as [[-> ->]|[_ Hb]];
        [vm_compute in Hrep; discriminate|].
      apply free_of_high; [exact markup_high | exact Hb].
    + assert (NA : first (N_of_ascii c0) <> ASCII) by (rewrite F; discriminate).
      destruct (decode_high c0 t0 r w D NA) as [[-> ->]|[_ Hb]];
        [vm_compute in Hrep; discriminate|].
      apply free_of_high; [exact markup_high | exact Hb].
Qed.

(** Whatever the input, valid UTF-8 or not, the escaped text holds none of
    the markup characters. *)
Lemma escape_loop_free (fuel : nat) (s : string) :
  free_of markup (escape_loop fuel s) = true.
Proof.
  revert s. induction fuel as [|fuel IH]; intros s; [reflexivity|].
  destruct s as [|c0 t0]; [reflexivity|].
  cbn [escape_loop].
  destruct (DecodeRuneInString (String c0 t0)) as [r w] eqn:D.
  rewrite free_of_app, IH, andb_true_r.
  exact (escape_step_free c0 t0 r w D).
Qed.

Lemma count_byte_app (c : ascii) (a b : string) :
  count_byte c (a ++ b) = count_byte c a + count_byte c b.
Proof. induction a as [|d a IH]; simpl; [reflexivity | rewrite IH; lia]. Qed.

Lemma count_byte_free (bad : ascii -> bool) (c : ascii) (s : string) :
  bad c = true -> free_of bad s = true -> count_byte c s = 0.
Proof.
  intros Hc. unfold free_of. induction s as [|d s IH]; simpl; [reflexivity|].
  intros H. apply andb_true_iff in H. destruct H as [Hd Hs].
  rewrite (IH Hs). destruct (Ascii.eqb_spec d c) as [->|_]; [|reflexivity].
  rewrite Hc in Hd. discriminate.
Qed.

Lemma count_byte_EscapeString (c : ascii) (s : string) :
  markup c = true -> count_byte c (EscapeString s) = 0.
Proof.
  intros H. apply (count_byte_free markup); [exact H | apply escape_loop_free].
Qed.

(** A rune of a string free of the eight characters, if it is not replaced,
    is copied. *)
Lemma escape_rune_copies (c0 : ascii) (t0 : string) (r : N) (w : nat) :
  DecodeRuneInString (String c0 t0) = (r, w) ->
  replaced r w = false ->
  escaped c0 = false ->
  (0 < w)%nat /\ escape_rune r w = None.
Proof.
  intros D Hrep Hc.
  destruct (first (N_of_ascii c0)) eqn:F.
  - unfold DecodeRuneInString in D. rewrite F in D. inversion D; subst r w.
    split; [lia|].
    unfold escape_rune. fold (replaced (N_of_ascii c0) 1). rewrite Hrep.
    unfold escaped in Hc. cbn [existsb] in Hc.
    repeat match type of Hc with
           | (_ || _)%bool = false =>
             apply orb_false_iff in Hc; destruct Hc as [? Hc]
           end.
    repeat match goal with
           | H : (_ =? _)%N = false |- _ => rewrite H; clear H
           end.
    reflexivity.
  - assert (NA : first (N_of_ascii c0) <> ASCII) by (rewrite F; discriminate).
    destruct (decode_high c0 t0 r w D NA) as [[-> ->]|[Hr _]];
      [vm_compute in Hrep; discriminate|].
    split; [|now apply escape_rune_high].
    unfold DecodeRuneInString in D. rewrite F in D. inversion D; lia.
  - assert (NA : first (N_of_ascii c0) <> ASCII) by (rewrite F; discriminate).
    destruct (decode_high c0 t0 r w D NA) as [[-> ->]|[Hr _]];
      [vm_compute in Hrep; discriminate|].
    split; [|now apply escape_rune_high].
    unfold DecodeRuneInString in D. rewrite F in D.
    repeat match type of D with
           | context [match ?x with _ => _ end] => destruct x
           end; inversion D; lia.
Qed.

Lemma escape_loop_verbatim (fuel : nat) (s : string) :
  String.length s <= fuel ->
  representable_loop fuel s = true ->
  free_of escaped s = true ->
  escape_loop fuel s = s.
Proof.
  revert s. induction fuel as [|fuel IH]; intros s Hlen Hrep Hfree.
  - destruct s; [reflexivity | simpl in Hlen; lia].
  - destruct s as [|c0 t0]; [reflexivity|].
    cbn [escape_loop representable_loop] in *.
    destruct (DecodeRuneInString (String c0 t0)) as [r w] eqn:D.
    apply andb_true_iff in Hrep. destruct Hrep as [Hr Hrest].
    apply negb_true_iff in Hr.
    assert (Hc : escaped c0 = false).
    { unfold free_of in Hfree. simpl in Hfree.
      apply andb_true_iff in Hfree. destruct Hfree as [Hc _].
      now apply negb_true_iff in Hc. }
    destruct (escape_rune_copies c0 t0 r w D Hr Hc) as [Hw ->].
    rewrite IH; [apply take_drop| |assumption|now apply free_of_drop].
    destruct w as [|w]; [lia|]. simpl in *.
    pose proof (length_drop_le w t0). lia.
Qed.

(** ** The envelope on the wire *)

(** X10 (ordinary values go on the wire as they are).  A field whose value
    is valid UTF-8 made of XML characters and holds none of the eight
    characters the marshaller escapes (the two quotes, the ampersand, the
    two angle brackets, tab, line feed, carriage return) is written as its
    start tag, the value byte for byte, and its end tag. *)
Theorem ordinary_field_is_written_verbatim (name v : string) :
  representable v = true ->
  free_of escaped v = true ->
  simpleField name v = "<" ++ name ++ ">" ++ v ++ "</" ++ name ++ ">".
Proof.
  intros Hr Hf. unfold simpleField, element, startTag, endTag, EscapeString.
  rewrite (escape_loop_verbatim _ _ (le_n _) Hr Hf).
  now rewrite !append_assoc.
Qed.

Section Wire.

Context {float64 : Type}.
Variable FormatFloat : float64 -> string.

(** X9 (field values cannot inject markup).  Whatever the field values,
    valid UTF-8 or not, and however the weight is formatted, the envelope
    holds exactly 64 opening and 64 closing angle brackets, those of its 32
    elements, the 4 double quotes of its two namespace attributes, and no
    apostrophe: no value adds a tag, ends one or closes an attribute. *)
Theorem envelope_skeleton_is_fixed (p : PickupRequestInput float64) :
  count_byte "<" (marshalPickupRequest FormatFloat (envelope p)) = 64 /\
  count_byte ">" (marshalPickupRequest FormatFloat (envelope p)) = 64 /\
  count_byte (ascii_of_N 34) (marshalPickupRequest FormatFloat (envelope p)) = 4 /\
  count_byte "'" (marshalPickupRequest FormatFloat (envelope p)) = 0.
Proof.
  unfold marshalPickupRequest, marshalPickupRequestInput, marshalShipper,
    marshalAddress, marshalContact, marshalName, marshalPhone, simpleField,
    element, attribute.
  repeat split; rewrite !count_byte_app.
  - rewrite !(count_byte_EscapeString "<" _ eq_refl). reflexivity.
  - rewrite !(count_byte_EscapeString ">" _ eq_refl). reflexivity.
  - rewrite !(count_byte_EscapeString (ascii_of_N 34) _ eq_refl). reflexivity.
  - rewrite !(count_byte_EscapeString "'" _ eq_refl). reflexivity.
Qed.

(** X11 (distinct inputs, distinct envelopes).  Two inputs that differ,
    whose strings are representable and whose weights are formatted to
    different texts unless they are equal, are marshalled to different
    bytes. *)
Theorem distinct_inputs_have_distinct_envelopes (p q : PickupRequestInput float64) :
  representable_Input FormatFloat p = true ->
  representable_Input FormatFloat q = true ->
  (FormatFloat (TotalWeight p) = FormatFloat (TotalWeight q) ->
   TotalWeight p = TotalWeight q) ->
  p <> q ->
  marshalPickupRequest FormatFloat (envelope p)
  <> marshalPickupRequest FormatFloat (envelope q).
Proof.
  intros Hp Hq Hw Hne E. apply Hne.
  set (parse := fun text =>
                  if String.eqb text (FormatFloat (TotalWeight p))
                  then Some (TotalWeight p) else Some (TotalWeight q)).
  assert (Pp : parse (FormatFloat (TotalWeight p)) = Some (TotalWeight p))
    by (unfold parse; now rewrite String.eqb_refl).
  assert (Pq : parse (FormatFloat (TotalWeight q)) = Some (TotalWeight q)).
  { unfold parse.
    destruct (String.eqb_spec (FormatFloat (TotalWeight q))
                              (FormatFloat (TotalWeight p))) as [Eq|_];
      [|reflexivity].
    now rewrite (Hw (eq_sym Eq)). }
  pose proof (parseEnvelope_marshal FormatFloat parse p Hp Pp) as Rp.
  pose proof (parseEnvelope_marshal FormatFloat parse q Hq Pq) as Rq.
  rewrite E, Rq in Rp. now inversion Rp.
Qed.

End Wire.

(** ** The calls of [RequestPickup] *)

Section Calls.

Context {float64 : Type}.
Variable FormatFloat : float64 -> string.

(** X1 (the request sent).  Every request [RequestPickup] hands to the
    transport is a POST whose header holds two entries and no other: the
    credentials it was called with, joined by a colon and encoded in base
    64 after the word Basic, as [Authorization], and [text/xml] as
    [Content-Type]. *)
Theorem request_is_an_authenticated_POST
    lib g (p : PickupRequestInput float64) u pw c req :
  In (call_Do c req) (trace (RequestPickup FormatFloat lib g p u pw)) ->
  Method req = "POST" /\
  Header req
  = [("Authorization", "Basic " ++ base64_EncodeToString (u ++ ":" ++ pw));
     ("Content-Type", "text/xml")].
Proof.
  intros H. apply RequestPickup_call_Do in H.
  destruct H as (_ & HM & _ & _ & HH). auto.
Qed.

(** X2 (one pass, no retry).  In every execution the library calls made are
    an initial part of the fixed sequence marshal, build the request, POST,
    read the body, decode as a success, decode as an error: each at most
    once and in that order.  The POST is made exactly when the request
    could be built. *)
Theorem library_calls_follow_the_pipeline
    lib g (p : PickupRequestInput float64) u pw :
  (exists rest,
     pipeline
     = (calls (trace (RequestPickup FormatFloat lib g p u pw)) ++ rest)%list) /\
  (In Do (calls (trace (RequestPickup FormatFloat lib g p u pw)))
   <-> http_NewRequest_err lib "POST" estesProductionURL = None).
Proof.
  branches lib; (split; [eexists; cbn; reflexivity|]); cbn;
    (split;
     [intros H; repeat destruct H as [H|H];
      try discriminate H; try contradiction; try reflexivity
     |intros H; try discriminate H; tauto]).
Qed.

(** X3 (the response body is closed).  The body of the response is closed
    exactly when a response was obtained, that is when the body was read;
    it is then closed once, as the last thing the call does, on success and
    on every failure alike. *)
Theorem response_body_is_closed_once lib g (p : PickupRequestInput float64) u pw :
  (In ReadAll (calls (trace (RequestPickup FormatFloat lib g p u pw)))
   <-> In call_Close (trace (RequestPickup FormatFloat lib g p u pw))) /\
  (In call_Close (trace (RequestPickup FormatFloat lib g p u pw)) ->
   exists before,
     trace (RequestPickup FormatFloat lib g p u pw)
     = (before ++ [call_Close])%list /\
     ~ In call_Close before).
Proof.
  branches lib; cbn; (split; [split; intros H; intuition discriminate|]);
    intros H; try (exfalso; intuition discriminate).
  all: match goal with
       | |- exists before, ?l = _ /\ _ =>
         exists (removelast l); cbn; split; [reflexivity | intuition discriminate]
       end.
Qed.

(** X4 (what an error says).  The text of every error [RequestPickup]
    returns starts with the name of the function; the error is either the
    fixed one of a reply without request number or a library's error
    wrapped, whose text ends with a colon and the text of that error. *)
Theorem errors_name_the_function lib g (p : PickupRequestInput float64) u pw e :
  err (RequestPickup FormatFloat lib g p u pw) = Some e ->
  HasPrefix (Error e) "estes.RequestPickup - " = true /\
  (e = errors_New "estes.RequestPickup - pickup request failed" \/
   exists cause msg,
     e = errors_Wrap cause msg /\ Error e = msg ++ ": " ++ Error cause).
Proof.
  branches lib; intros H; inversion H; subst; (split; [reflexivity|]);
    first [left; reflexivity | right; do 2 eexists; split; reflexivity].
Qed.


(** X6 (a success logs the request only).  When [RequestPickup] succeeds
    the one line it has logged is the marshalled request: the confirmation
    is not logged. *)
Theorem success_logs_the_request_only lib g (p : PickupRequestInput float64) u pw :
  err (RequestPickup FormatFloat lib g p u pw) = None ->
  filter is_log (trace (RequestPickup FormatFloat lib g p u pw))
  = [log_Println (marshalPickupRequest FormatFloat (envelope p))].
Proof.
  branches lib; intros H; try discriminate H; reflexivity.
Qed.

(** X7 (the configuration after any sequence of operations).  After any
    sequence of [SetProductionMode], [SetTimeout] and [RequestPickup] calls
    the URL variable holds the production URL if some
    [SetProductionMode(true)] occurred and its initial value otherwise, and
    the timeout is that of the last [SetTimeout], or its initial value if
    there was none: the setters do not interfere with one another, and
    [RequestPickup] changes neither variable. *)
Theorem configuration_after (ops : list (Op float64)) (g : Globals) :
  estesURL (fold_left (step FormatFloat) ops g)
  = (if production_requested ops then estesProductionURL else estesURL g) /\
  timeout (fold_left (step FormatFloat) ops g)
  = match last_SetTimeout ops with
    | Some n => wrap64 (n * Second)
    | None => timeout g
    end.
Proof.
  revert g. induction ops as [|o ops IH]; intros g; [split; reflexivity|].
  cbn [fold_left production_requested existsb last_SetTimeout].
  destruct (IH (step FormatFloat g o)) as [IHu IHt].
  fold (production_requested ops). rewrite IHu, IHt. split.
  - destruct (production_requested ops); [now rewrite orb_true_r|].
    rewrite orb_false_r.
    destruct o as [[|]|n|lib p u pw];
      cbn [step SetProductionMode SetTimeout estesURL]; try reflexivity.
    now rewrite RequestPickup_globals.
  - destruct (last_SetTimeout ops); [reflexivity|].
    destruct o as [[|]|n|lib p u pw];
      cbn [step SetProductionMode SetTimeout timeout]; try reflexivity.
    now rewrite RequestPickup_globals.
Qed.

(** The package variables reach [RequestPickup] through [timeout] only. *)
Lemma RequestPickup_reads_the_timeout_only
    lib g1 g2 (p : PickupRequestInput float64) u pw :
  timeout g1 = timeout g2 ->
  trace (RequestPickup FormatFloat lib g1 p u pw)
  = trace (RequestPickup FormatFloat lib g2 p u pw) /\
  err (RequestPickup FormatFloat lib g1 p u pw)
  = err (RequestPickup FormatFloat lib g2 p u pw) /\
  responseData (RequestPickup FormatFloat lib g1 p u pw)
  = responseData (RequestPickup FormatFloat lib g2 p u pw).
Proof.
  intros H. run. rewrite H. branches lib; repeat split; reflexivity.
Qed.

(** X12 ([SetProductionMode] does not reach [RequestPickup]).  A call of
    [RequestPickup] made after [SetProductionMode], with either argument,
    makes the same library calls with the same arguments, logs the same
    lines and returns the same value and error as the call made without
    it. *)
Theorem SetProductionMode_does_not_reach_RequestPickup
    lib g (p : PickupRequestInput float64) u pw yes :
  trace (RequestPickup FormatFloat lib (SetProductionMode yes g) p u pw)
  = trace (RequestPickup FormatFloat lib g p u pw) /\
  err (RequestPickup FormatFloat lib (SetProductionMode yes g) p u pw)
  = err (RequestPickup FormatFloat lib g p u pw) /\
  responseData (RequestPickup FormatFloat lib (SetProductionMode yes g) p u pw)
  = responseData (RequestPickup FormatFloat lib g p u pw).
Proof.
  apply RequestPickup_reads_the_timeout_only. now destruct yes.
Qed.

End Calls.

(** X8 (the range of [SetTimeout]).  The timeout [SetTimeout(n)] stores is
    an [int64]; it is [n] seconds exactly when [n] lies between
    -9223372036 and 9223372036, and a wrapped value outside. *)
Theorem SetTimeout_is_exact_in_range (n : Z) (g : Globals) :
  int64_range (timeout (SetTimeout n g)) /\
  (timeout (SetTimeout n g) = (n * Second)%Z
   <-> (-9223372036 <= n <= 9223372036)%Z).
Proof.
  cbn [SetTimeout timeout]. unfold int64_range, wrap64, Second.
  pose proof (Z.mod_pos_bound (n * 1000000000 + 2 ^ 63) (2 ^ 64) ltac:(lia)) as B.
  split; [lia|]. split.
  - intros H. lia.
  - intros H. rewrite Z.mod_small by lia. lia.
Qed.

(** ** The further properties at sample runs *)

Lemma request_is_an_authenticated_POST_witness :
  exists c req,
    In (call_Do c req)
       (trace (RequestPickup FormatUint unreachable initGlobals
                 (sample_Input "ACME") "user" "secret")) /\
    Method req = "POST" /\
    Header req = [("Authorization", "Basic dXNlcjpzZWNyZXQ=");
                  ("Content-Type", "text/xml")].
Proof.
  assert (H : exists c req,
             In (call_Do c req)
                (trace (RequestPickup FormatUint unreachable initGlobals
                          (sample_Input "ACME") "user" "secret")))
    by (vm_compute; do 2 eexists; here).
  destruct H as (c & req & H). exists c, req. split; [exact H|].
  exact (request_is_an_authenticated_POST FormatUint unreachable initGlobals
           (sample_Input "ACME") "user" "secret" c req H).
Defined.

Lemma errors_name_the_function_witness :
  let e := errors_Wrap
             (lib_error "dial tcp: lookup api.estes-express.com: no such host")
             "estes.RequestPickup - could not make post request" in
  err (RequestPickup FormatUint unreachable initGlobals
         (sample_Input "ACME") "user" "secret") = Some e /\
  HasPrefix (Error e) "estes.RequestPickup - " = true.
Proof.
  cbv zeta.
  assert (H : err (RequestPickup FormatUint unreachable initGlobals
                     (sample_Input "ACME") "user" "secret")
              = Some (errors_Wrap
                        (lib_error "dial tcp: lookup api.estes-express.com: no such host")
                        "estes.RequestPickup - could not make post request"))
    by (vm_compute; reflexivity).
  split; [exact H|].
  exact (proj1 (errors_name_the_function FormatUint unreachable initGlobals
                  (sample_Input "ACME") "user" "secret" _ H)).
Defined.

Lemma success_logs_the_request_only_witness :
  err (RequestPickup FormatUint confirming initGlobals
         (sample_Input "ACME") "user" "secret") = None /\
  filter is_log (trace (RequestPickup FormatUint confirming initGlobals
                          (sample_Input "ACME") "user" "secret"))
  = [log_Println (marshalPickupRequest FormatUint (envelope (sample_Input "ACME")))].
Proof.
  assert (H : err (RequestPickup FormatUint confirming initGlobals
                     (sample_Input "ACME") "user" "secret") = None)
    by (vm_compute; reflexivity).
  split; [exact H|].
  exact (success_logs_the_request_only FormatUint confirming initGlobals
           (sample_Input "ACME") "user" "secret" H).
Defined.

Lemma ordinary_field_is_written_verbatim_witness :
  representable "2020-01-02" = true /\
  free_of escaped "2020-01-02" = true /\
  simpleField "pickupDate" "2020-01-02" = "<pickupDate>2020-01-02</pickupDate>".
Proof.
  split; [vm_compute; reflexivity|]. split; [vm_compute; reflexivity|].
  apply (ordinary_field_is_written_verbatim "pickupDate" "2020-01-02");
    vm_compute; reflexivity.
Defined.

Lemma distinct_inputs_have_distinct_envelopes_witness :
  representable_Input FormatUint (sample_Input "ACME") = true /\
  representable_Input FormatUint (sample_Input "Initech") = true /\
  marshalPickupRequest FormatUint (envelope (sample_Input "ACME"))
  <> marshalPickupRequest FormatUint (envelope (sample_Input "Initech")).
Proof.
  assert (Hp : representable_Input FormatUint (sample_Input "ACME") = true)
    by (vm_compute; reflexivity).
  assert (Hq : representable_Input FormatUint (sample_Input "Initech") = true)
    by (vm_compute; reflexivity).
  split; [exact Hp|]. split; [exact Hq|].
  apply (distinct_inputs_have_distinct_envelopes FormatUint _ _ Hp Hq).
  - reflexivity.
  - intros E.
    apply (f_equal (fun v => ShipperName (Input_Shipper v))) in E.
    vm_compute in E. discriminate E.
Defined.
